(** * next-dhcp: the DHCP engine and its configuration, embedded in Rocq

    The development follows the Python sources:
    - [config/dhcp.py]  : [DHCPServerConfiguration] ([dhcp_range_len], [check], [in_range]);
    - [core/dhcp.py]    : [DHCPMessages], [Session], [DHCPServer].

    Python values are modelled as follows.  IPv4 addresses are their 32-bit
    value in [Z]; MAC addresses and names are strings; a reading of
    [time.time()] is the rational ([Q]) the float stands for, and sums and
    differences of readings are rounded as binary64 addition rounds them;
    dictionaries are [gmap]s; an exception is an explicit [Raise] result.
    Effects that leave the process (log lines, socket sends, calls into the
    lease store) are recorded in an event trace carried by the server state. *)

From Stdlib Require Import ZArith QArith Ascii String List Lia Bool.
From stdpp Require Import base gmap strings list fin_maps.

Local Open Scope string_scope.
Local Open Scope Z_scope.

(** ** Python exceptions and results *)

Inductive PyExn : Type :=
| InvalidDHCPConfiguration   (* core/exceptions.py *)
| AddressValueError          (* ipaddress: a ValueError subclass *)
| ValueError
| AttributeError
| KeyError
| IndexError
| DHCPValueError             (* dhcppython: a bad argument of a constructor *)
| OSError
| OtherException.            (* any other Exception subclass *)

Inductive Result (A : Type) : Type :=
| Ok (a : A)
| Raise (e : PyExn).
Arguments Ok {A} a.
Arguments Raise {A} e.

Inductive LogLevel : Type := INFO | SUCCESS | WARNING | ERROR.

(** ** The [ipaddress] values the repository uses *)

Module ipaddress.

Definition ALL_ONES : Z := 2 ^ 32 - 1.

  (** [IPv4Address(n)] for an integer [n]: the range check of the
      constructor. *)
Definition IPv4Address (n : Z) : Result Z :=
    if (n <? 0) || (ALL_ONES <? n) then Raise AddressValueError else Ok n.

  (** [ipaddress.ip_address(n)] for an integer: IPv4 first, then IPv6. *)
Inductive Address : Type := V4 (ip : Z) | V6 (ip : Z).

Definition ip_address (n : Z) : Result Address :=
    match IPv4Address n with
    | Ok a => Ok (V4 a)
    | Raise _ =>
        if (n <? 0) || (2 ^ 128 - 1 <? n) then Raise ValueError else Ok (V6 n)
    end.

  (** An [IPv4Network]: its network address and prefix length. *)
Record IPv4Network : Type := {
    network_address : Z;
    prefixlen : Z
  }.

  (** [_ip_int_from_prefix]: ALL_ONES ^ (ALL_ONES >> prefixlen). *)
Definition netmask (net : IPv4Network) : Z :=
    Z.lxor ALL_ONES (Z.shiftr ALL_ONES (prefixlen net)).

Definition broadcast_address (net : IPv4Network) : Z :=
    Z.lor (network_address net) (Z.lxor (netmask net) ALL_ONES).

  (** [addr in net] for an IPv4 address:
      [other._ip & self.netmask._ip == self.network_address._ip]. *)
Definition contains4 (net : IPv4Network) (ip : Z) : bool :=
    Z.land ip (netmask net) =? network_address net.

  (** [addr in net]: always false when the versions differ. *)
Definition contains (net : IPv4Network) (a : Address) : bool :=
    match a with
    | V4 ip => contains4 net ip
    | V6 _ => false
    end.

  (** *** Dotted-quad text, as [IPv4Address(str)] reads it

      Four octets separated by dots; an octet is one to three decimal
      digits, without a leading zero unless it is "0", and at most 255. *)

Fixpoint split_dots (s : string) (cur : string) : list string :=
    match s with
    | EmptyString => [cur]
    | String c rest =>
        if Ascii.eqb c "."%char then cur :: split_dots rest ""
        else split_dots rest (cur ++ String c "")
    end.

Definition digit (c : Ascii.ascii) : option Z :=
    let n := Z.of_nat (Ascii.nat_of_ascii c) in
    if (48 <=? n) && (n <=? 57) then Some (n - 48) else None.

Fixpoint digits (s : string) (acc : Z) : option Z :=
    match s with
    | EmptyString => Some acc
    | String c rest =>
        match digit c with
        | Some d => digits rest (10 * acc + d)
        | None => None
        end
    end.

Definition parse_octet (s : string) : option Z :=
    match s with
    | EmptyString => None
    | String c rest =>
        if (3 <? String.length s)%nat then None
        else if Ascii.eqb c "0"%char && negb (String.eqb rest "") then None
        else match digits s 0 with
             | Some v => if 255 <? v then None else Some v
             | None => None
             end
    end.

Definition ip_int_from_string (s : string) : option Z :=
    match List.map parse_octet (split_dots s "") with
    | [Some a; Some b; Some c; Some d] =>
        Some (Z.lor (Z.shiftl a 24) (Z.lor (Z.shiftl b 16) (Z.lor (Z.shiftl c 8) d)))
    | _ => None
    end.

End ipaddress.

(** ** config/dhcp.py *)

Module DHCPServerConfiguration.
Import ipaddress.

Record t : Type := {
    network : IPv4Network;
    range : Z * Z;
    router : string;
    domain : string;
    lease_time : Z;
    domain_name_servers : list string;
    server_ip : option Z
  }.

  (** The dataclass defaults. *)
Definition default : t := {|
    network := {| network_address := 168755200; prefixlen := 24 |};  (* 10.15.0.0/24 *)
    range := (170852353, 170852606);
    router := "10.15.0.1";
    domain := "local";
    lease_time := 300;
    domain_name_servers := ["1.1.1.1"; "8.8.8.8"; "9.9.9.9"];
    server_ip := None
  |}.

  (** [dhcp_range_len]: [self.range[1] - self.range[0]]. *)
Definition dhcp_range_len (self : t) : Z :=
    snd (range self) - fst (range self).

  Section Check.
    (** [IPv4Address(text)]: the standard library's parser of address
        text, [None] when it raises [AddressValueError]. *)
Variable IPv4Address_of_string : string -> option Z.

    (** [check]: the log lines written and the result. *)
Definition check (self : t) : list LogLevel * Result unit :=
      match server_ip self with
      | None => ([], Raise InvalidDHCPConfiguration)
      | Some _ =>
          match IPv4Address (fst (range self)) with
          | Raise e => ([SUCCESS], Raise e)
          | Ok s =>
              match IPv4Address (snd (range self)) with
              | Raise e => ([SUCCESS], Raise e)
              | Ok e =>
                  if negb (contains4 (network self) s) || negb (contains4 (network self) e)
                  then ([SUCCESS], Raise InvalidDHCPConfiguration)
                  else if dhcp_range_len self <? 2
                  then ([SUCCESS], Raise InvalidDHCPConfiguration)
                  else
                    match IPv4Address_of_string (router self) with
                    | None => ([SUCCESS], Raise AddressValueError)
                    | Some r =>
                        if negb (contains4 (network self) r)
                        then ([SUCCESS; WARNING], Ok tt)
                        else ([SUCCESS], Ok tt)
                    end
              end
          end
      end.
  End Check.

  (** [in_range]: [ipaddress.ip_address(ip) in self.network]. *)
Definition in_range (self : t) (ip : Z) : Result bool :=
    match ip_address ip with
    | Ok a => Ok (contains (network self) a)
    | Raise e => Raise e
    end.

  (** Membership in the inclusive allocation range, the property the
      docstring of [in_range] names. *)
Definition within_range (self : t) (ip : Z) : Prop :=
    fst (range self) <= ip <= snd (range self).

End DHCPServerConfiguration.

(** ** Packets, as the engine sees the [dhcppython] objects *)

Inductive PyVal : Type :=
| PyNone
| PyBool (b : bool)
| PyStr (s : string)
| PyInt (n : Z)
| PyIP (a : Z).

#[global] Instance PyVal_eq_dec : EqDecision PyVal.
Proof. solve_decision. Defined.

(** Python [==] on the values above. *)
Definition py_eqb (a b : PyVal) : bool := bool_decide (a = b).

(** [d.get(key)]: [None] for a missing key. *)
Definition dict_get (d : gmap string PyVal) (key : string) : PyVal :=
  match d !! key with
  | Some v => v
  | None => PyNone
  end.

(** An option of the option list: its code and what its [value] property
    gives.  The library computes the dictionary from the bytes of the
    option when [value] is read, and raises when they do not decode. *)
Record DHCPOption : Type := {
  code : Z;
  value : Result (gmap string PyVal)
}.

Record DHCPPacket : Type := {
  op : string;
  xid : Z;
  secs : Z;
  ciaddr : Z;
  yiaddr : Z;
  siaddr : Z;
  giaddr : Z;
  chaddr : string;
  options : list DHCPOption
}.

(** [OptionList.by_code]: the option with that code, or [None]. *)
Definition by_code (c : Z) (opts : list DHCPOption) : option DHCPOption :=
  List.find (fun o => code o =? c) opts.

(** [options.short_value_to_object(53, name)]. *)
Definition message_type_option (name : string) : DHCPOption :=
  {| code := 53; value := Ok {[ "dhcp_message_type" := PyStr name ]} |}.

(** [s.split(sep)]. *)
Fixpoint split_on (sep : Ascii.ascii) (s : string) (cur : string) : list string :=
  match s with
  | EmptyString => [cur]
  | String c rest =>
      if Ascii.eqb c sep then cur :: split_on sep rest ""
      else split_on sep rest (cur ++ String c "")
  end.

(** The test the reply constructors make on [mac_addr]: six parts
    between colons, seventeen characters. *)
Definition valid_mac (mac_addr : string) : bool :=
  (List.length (split_on ":"%char mac_addr "") =? 6)%nat
  && (String.length mac_addr =? 17)%nat.

(** The reply constructors [DHCPPacket.Offer] and [DHCPPacket.Ack]: they
    raise [DHCPValueError] for a [mac_addr] that fails the test above,
    turn [yiaddr] into an address, which can raise too ([yi] is the result
    of that), and build a BOOTREPLY whose option list starts with the
    message type. *)
Definition reply (name : string) (mac_addr : string) (seconds tx_id : Z)
    (yi : Result Z) (option_list : list DHCPOption) : Result DHCPPacket :=
  if valid_mac mac_addr then
    match yi with
    | Ok a =>
        Ok {| op := "BOOTREPLY"; xid := tx_id; secs := seconds;
              ciaddr := 0; yiaddr := a; siaddr := 0; giaddr := 0;
              chaddr := mac_addr;
              options := message_type_option name :: option_list |}
    | Raise e => Raise e
    end
  else Raise DHCPValueError.

Definition Offer := reply "DHCPOFFER".
Definition Ack := reply "DHCPACK".

Definition set_siaddr (a : Z) (p : DHCPPacket) : DHCPPacket :=
  {| op := op p; xid := xid p; secs := secs p; ciaddr := ciaddr p;
     yiaddr := yiaddr p; siaddr := a; giaddr := giaddr p;
     chaddr := chaddr p; options := options p |}.

Definition set_options (o : list DHCPOption) (p : DHCPPacket) : DHCPPacket :=
  {| op := op p; xid := xid p; secs := secs p; ciaddr := ciaddr p;
     yiaddr := yiaddr p; siaddr := siaddr p; giaddr := giaddr p;
     chaddr := chaddr p; options := o |}.

(** The message type a packet announces (option 53), when it has one. *)
Definition message_type (p : DHCPPacket) : option PyVal :=
  match by_code 53 (options p) with
  | Some m =>
      match value m with
      | Ok d => d !! "dhcp_message_type"
      | Raise _ => None
      end
  | None => None
  end.

(** ** core/dhcp.py: [DHCPMessages] *)

Inductive DHCPMessages : Type :=
| DHCPDISCOVER | DHCPOFFER | DHCPREQUEST | DHCPDECLINE
| DHCPACK | DHCPNAK | DHCPRELEASE | DHCPINFORM.

(** [DHCPMessages[name]]: [None] stands for the [KeyError]. *)
Definition DHCPMessages_getitem (name : PyVal) : option DHCPMessages :=
  match name with
  | PyStr s =>
      if String.eqb s "DHCPDISCOVER" then Some DHCPDISCOVER
      else if String.eqb s "DHCPOFFER" then Some DHCPOFFER
      else if String.eqb s "DHCPREQUEST" then Some DHCPREQUEST
      else if String.eqb s "DHCPDECLINE" then Some DHCPDECLINE
      else if String.eqb s "DHCPACK" then Some DHCPACK
      else if String.eqb s "DHCPNAK" then Some DHCPNAK
      else if String.eqb s "DHCPRELEASE" then Some DHCPRELEASE
      else if String.eqb s "DHCPINFORM" then Some DHCPINFORM
      else None
  | _ => None
  end.

(** ** Time *)

(** [a < b] on clock readings. *)
Definition Qltb (a b : Q) : bool :=
  Qnum a * Z.pos (Qden b) <? Qnum b * Z.pos (Qden a).

(** [int(x)]: truncation towards zero. *)
Definition Qtrunc (x : Q) : Z := Z.quot (Qnum x) (Z.pos (Qden x)).

(** *** Float arithmetic

    A clock reading is a binary64 float, here the rational it stands for;
    comparing floats is comparing these rationals.  Sums and differences
    are rounded to the nearest float, ties to even (values too large for
    a float do not arise from clock readings and are not treated). *)

(** [n / d] rounded to the nearest integer, ties to even ([0 <= n], [0 < d]). *)
Definition round_half_even (n d : Z) : Z :=
  let qt := n / d in
  let r := n mod d in
  if 2 * r <? d then qt
  else if d <? 2 * r then qt + 1
  else if Z.even qt then qt else qt + 1.

(** The integer part of the binary logarithm of [n / d] ([0 < n], [0 < d]). *)
Definition floor_log2 (n d : Z) : Z :=
  let k := Z.log2 n - Z.log2 d in
  if (if 0 <=? k then d * 2 ^ k <=? n else d <=? n * 2 ^ (- k)) then k else k - 1.

Definition round64 (q : Q) : Q :=
  let n := Z.abs (Qnum q) in
  let d := Z.pos (Qden q) in
  if n =? 0 then 0%Q
  else
    let e := Z.max (floor_log2 n d - 52) (-1074) in
    let m := if 0 <=? e then round_half_even n (d * 2 ^ e)
             else round_half_even (n * 2 ^ (- e)) d in
    let v := if 0 <=? e then inject_Z (m * 2 ^ e)
             else Qmake m (Z.to_pos (2 ^ (- e))) in
    Qred (if Qnum q <? 0 then (- v)%Q else v).

(** [a + b] and [a - b] on floats. *)
Definition float_add (a b : Q) : Q := round64 (a + b)%Q.
Definition float_sub (a b : Q) : Q := round64 (a - b)%Q.

(** What happens to the socket calls of one [broadcast]: opening the
    socket or setting its options fails (outside the [try]), [bind]
    fails, the first or the second [sendto] fails, or all succeed. *)
Inductive Network : Type :=
| SocketError
| BindError
| FirstSendError
| SecondSendError
| NetworkUp.

(** What the environment decides during one cycle of the server.  The
    cycle reads at most one datagram ([select] watches one socket).  The
    clock is read when a session is created (twice: for [start] and for
    [timeout]), when a reply is built, and in [is_done] ([now]; one
    reading serves a sweep).  [encodes] tells for which packets the
    library's [asbytes] succeeds. *)
Record Env : Type := {
  now : Q;
  clock_start : Q;
  clock_timeout : Q;
  clock_reply : Q;
  network : Network;
  encodes : DHCPPacket -> bool
}.

(** ** core/dhcp.py: [Session], the part that touches only the session *)

Module Session.

Record t : Type := {
    start : Q;
    packets : list DHCPPacket;
    timeout : Q;
    closed : bool
  }.

  (** [__init__]. *)
Definition init (env : Env) : t :=
    {| start := clock_start env;
       packets := [];
       timeout := float_add (clock_timeout env) 30;
       closed := false |}.

  (** [is_done]: [self.closed or self.timeout < time.time()]. *)
Definition is_done (self : t) (env : Env) : bool :=
    closed self || Qltb (timeout self) (now env).

  (** [close]. *)
Definition close (self : t) : t :=
    {| start := start self; packets := packets self;
       timeout := timeout self; closed := true |}.

End Session.

(** ** The collaborators of the engine that are not among the sources *)

(** A lease row, as the engine reads it ([host.ip]). *)
Record Host : Type := {
  mac : string;
  ip : Z;
  hostname : PyVal;
  allocated_at : Q
}.

(** Modelled from the spec: the lease store [HostDatabase]
    (dhcp/core/database.py) is not among the sources; the engine calls
    [find_or_register], which returns the address or 0, [get], a pure
    lookup, and [flush]. *)
Class HostStore (DB : Type) : Type := {
  find_or_register : DB -> Env -> string -> PyVal -> PyVal -> DB * Z;
  get : DB -> string -> option Host;
  flush : DB -> DB
}.

(** Modelled from the spec: the configuration class of the engine
    (core/config.py) is not among the sources; the engine reads its
    [options], [dhcp_server_ip] and [network.broadcast_address]. *)
Module CoreConfiguration.
Record t : Type := {
    options : list DHCPOption;
    dhcp_server_ip : Z;
    network : ipaddress.IPv4Network
  }.
End CoreConfiguration.

(** ** Observable effects *)

Inductive Event : Type :=
| Log (level : LogLevel)
| StoreGet (mac : string)
| StoreFindOrRegister (mac : string) (req_ip : PyVal) (hostname : PyVal)
| Broadcast (packet : DHCPPacket)
| SendTo (packet : DHCPPacket) (dest : Z).

Definition is_broadcast (e : Event) : bool :=
  match e with
  | Broadcast _ | SendTo _ _ => true
  | _ => false
  end.

Definition is_store_access (e : Event) : bool :=
  match e with
  | StoreGet _ | StoreFindOrRegister _ _ _ => true
  | _ => false
  end.

(** ** core/dhcp.py: the state of [DHCPServer] *)

Module DHCPServer.

Record t (DB : Type) : Type := {
    conf : CoreConfiguration.t;
    closed : bool;
    sessions : gmap Z Session.t;
    hosts : DB;
    time_started : Q;
    effects : list Event
  }.
Arguments conf {DB} _.
Arguments closed {DB} _.
Arguments sessions {DB} _.
Arguments hosts {DB} _.
Arguments time_started {DB} _.
Arguments effects {DB} _.

Definition set_closed {DB} (b : bool) (s : t DB) : t DB :=
    {| conf := conf s; closed := b; sessions := sessions s;
       hosts := hosts s; time_started := time_started s; effects := effects s |}.

Definition set_sessions {DB} (m : gmap Z Session.t) (s : t DB) : t DB :=
    {| conf := conf s; closed := closed s; sessions := m;
       hosts := hosts s; time_started := time_started s; effects := effects s |}.

Definition set_hosts {DB} (h : DB) (s : t DB) : t DB :=
    {| conf := conf s; closed := closed s; sessions := sessions s;
       hosts := h; time_started := time_started s; effects := effects s |}.

Definition emit {DB} (evs : list Event) (s : t DB) : t DB :=
    {| conf := conf s; closed := closed s; sessions := sessions s;
       hosts := hosts s; time_started := time_started s;
       effects := effects s ++ evs |}.

  (** [__init__], given the store built from the configuration. *)
Definition init {DB} (configuration : CoreConfiguration.t) (db : DB) (env : Env) : t DB :=
    {| conf := configuration; closed := false; sessions := ∅;
       hosts := db; time_started := now env; effects := [] |}.

End DHCPServer.

(** ** core/dhcp.py: the methods, in a state-and-exception monad *)

(** A datagram read from the socket: [recvfrom] fails with [OSError],
    [DHCPPacket.from_bytes] fails, or a packet is decoded. *)
Inductive Datagram : Type :=
| RecvOSError
| Undecodable
| Decoded (packet : DHCPPacket).

(** The result of [select.select]: a [ValueError], or the readable sockets
    (each stands for the datagram read from it). *)
Inductive Select : Type :=
| SelectValueError
| Readable (reads : list Datagram).

(** One turn of the loop of [start]: a [KeyboardInterrupt], or a call of
    [_worker] in some environment. *)
Inductive Cycle : Type :=
| KeyboardInterrupt
| Turn (env : Env) (sel : Select).

Declare Scope dhcp_scope.
Delimit Scope dhcp_scope with dhcp.

Section Engine.
Context {DB : Type} `{HostStore DB}.

Definition M (A : Type) : Type :=
    DHCPServer.t DB -> Result A * DHCPServer.t DB.

Definition ret {A} (a : A) : M A := fun s => (Ok a, s).

Definition raise {A} (e : PyExn) : M A := fun s => (Raise e, s).

Definition bind {A B} (c : M A) (k : A -> M B) : M B :=
    fun s =>
      match c s with
      | (Ok a, s') => k a s'
      | (Raise e, s') => (Raise e, s')
      end.

Local Notation "'let*' x ':=' c 'in' k" := (bind c (fun x => k))
    (at level 10, x name, c at level 100, k at level 200) : dhcp_scope.
Local Open Scope dhcp_scope.

  (** [logger.<level>(...)]. *)
Definition log (level : LogLevel) : M unit :=
    fun s => (Ok tt, DHCPServer.emit [Log level] s).

Definition event (e : Event) : M unit :=
    fun s => (Ok tt, DHCPServer.emit [e] s).

Definition read_conf : M CoreConfiguration.t :=
    fun s => (Ok (DHCPServer.conf s), s).

  (** [self.server.hosts.get(mac=...)]. *)
Definition hosts_get (mac : string) : M (option Host) :=
    fun s => (Ok (get (DHCPServer.hosts s) mac), DHCPServer.emit [StoreGet mac] s).

  (** [self.server.hosts.find_or_register(mac, req_ip, hostname)]. *)
Definition hosts_find_or_register (env : Env) (mac : string)
      (req_ip hostname : PyVal) : M Z :=
    fun s =>
      let (db, a) := find_or_register (DHCPServer.hosts s) env mac req_ip hostname in
      (Ok a,
       DHCPServer.emit [StoreFindOrRegister mac req_ip hostname]
         (DHCPServer.set_hosts db s)).

  (** What the [except] branch of [broadcast] logs. *)
Definition log_failure : M unit :=
    let* _ := log ERROR in log ERROR.

  (** [DHCPServer.broadcast].  The log line reads the message type of the
      packet first.  Opening the socket and setting its options happen
      outside the [try]: a failure there escapes.  Inside the [try] come
      the encoding of the packet, [bind] and the two sends; the first
      failure among them ends the [try] and is logged. *)
Definition broadcast (env : Env) (packet : DHCPPacket) : M unit :=
    match by_code 53 (options packet) with
    | None => raise AttributeError
    | Some m =>
        match value m with
        | Raise e => raise e
        | Ok d =>
            match d !! "dhcp_message_type" with
            | None => raise KeyError
            | Some _ =>
                let* _ := log INFO in
                let* _ := event (Broadcast packet) in
                match network env with
                | SocketError => raise OSError
                | net =>
                    let* conf := read_conf in
                    if negb (encodes env packet) then log_failure
                    else
                      match net with
                      | BindError | FirstSendError => log_failure
                      | SecondSendError =>
                          let* _ := event (SendTo packet ipaddress.ALL_ONES) in
                          log_failure
                      | _ =>
                          let* _ := event (SendTo packet ipaddress.ALL_ONES) in
                          event (SendTo packet
                                   (ipaddress.broadcast_address
                                      (CoreConfiguration.network conf)))
                      end
                end
            end
        end
    end.

  (** [int(time.time() - self.start)]. *)
Definition seconds_since_start (self : Session.t) (env : Env) : Z :=
    Qtrunc (float_sub (clock_reply env) (Session.start self)).

  (** [Session.send_nak]; [packet.yiaddr] is an address already. *)
Definition send_nak (self : Session.t) (env : Env) (packet : DHCPPacket) : M unit :=
    match Ack (chaddr packet) (seconds_since_start self env)
              (xid packet) (Ok (yiaddr packet)) [] with
    | Raise e => raise e
    | Ok nack =>
        let* conf := read_conf in
        let nack := set_siaddr (CoreConfiguration.dhcp_server_ip conf) nack in
        let nack := set_options [message_type_option "DHCPNAK"] nack in
        broadcast env nack
    end.

  (** [option.value.get(key)] for an option that is present. *)
Definition value_get (o : DHCPOption) (key : string) : Result PyVal :=
    match value o with
    | Ok d => Ok (dict_get d key)
    | Raise e => Raise e
    end.

  (** [Session.send_ack]. *)
Definition send_ack (self : Session.t) (env : Env) (packet : DHCPPacket) : M unit :=
    let* host := hosts_get (chaddr packet) in
    match host with
    | None => let* _ := log ERROR in send_nak self env packet
    | Some host =>
        let build_ack : M unit :=
          let* conf := read_conf in
          match Ack (chaddr packet) (seconds_since_start self env) (xid packet)
                    (ipaddress.IPv4Address (ip host))
                    (CoreConfiguration.options conf) with
          | Raise e => raise e
          | Ok ack =>
              let ack := set_siaddr (CoreConfiguration.dhcp_server_ip conf) ack in
              broadcast env ack
          end in
        match by_code 50 (options packet) with
        | Some req_ip =>
            match value_get req_ip "requested_ip_address" with
            | Raise e => raise e
            | Ok req_ip =>
                if negb (py_eqb (PyIP (ip host)) req_ip)
                then let* _ := log ERROR in send_nak self env packet
                else build_ack
            end
        | None => build_ack
        end
    end.

  (** The hint [send_offer] hands to the store. *)
Definition offer_req_ip (packet : DHCPPacket) : Result PyVal :=
    match by_code 50 (options packet) with
    | Some req_ip => value_get req_ip "requested_ip_address"
    | None => Ok (PyIP (ciaddr packet))
    end.

Definition offer_hostname (packet : DHCPPacket) : Result PyVal :=
    match by_code 12 (options packet) with
    | Some hostname => value_get hostname "hostname"
    | None => Ok PyNone
    end.

  (** [Session.send_offer]. *)
Definition send_offer (self : Session.t) (env : Env) (packet : DHCPPacket) : M unit :=
    let mac := chaddr packet in
    match offer_req_ip packet with
    | Raise e => raise e
    | Ok req_ip =>
        match offer_hostname packet with
        | Raise e => raise e
        | Ok hostname =>
            let* a := hosts_find_or_register env mac req_ip hostname in
            if a =? 0 then ret tt
            else
              let* conf := read_conf in
              match Offer (chaddr packet) (seconds_since_start self env) (xid packet)
                          (ipaddress.IPv4Address a)
                          (CoreConfiguration.options conf) with
              | Raise e => raise e
              | Ok offer =>
                  let offer := set_siaddr (CoreConfiguration.dhcp_server_ip conf) offer in
                  broadcast env offer
              end
        end
    end.

  (** [DHCPMessages[message.value['dhcp_message_type']]] under
      [except KeyError]: the member, [None] for the [KeyError] the
      handler catches, or the exception that escapes. *)
Definition lookup_message (message : DHCPOption) : Result (option DHCPMessages) :=
    match value message with
    | Ok d =>
        match d !! "dhcp_message_type" with
        | Some name => Ok (DHCPMessages_getitem name)
        | None => Ok None
        end
    | Raise KeyError => Ok None
    | Raise e => Raise e
    end.

  (** [Session.receive]; the value returned is [None] or [False]. *)
Definition receive (self : Session.t) (env : Env) (packet : DHCPPacket) : M PyVal :=
    if Session.closed self then ret PyNone
    else if String.eqb (op packet) "BOOTREQUEST" then
      match by_code 53 (options packet) with
      | None => raise AttributeError
      | Some message =>
          match lookup_message message with
          | Raise e => raise e
          | Ok None => let* _ := log WARNING in ret (PyBool false)
          | Ok (Some DHCPDISCOVER) => let* _ := send_offer self env packet in ret PyNone
          | Ok (Some DHCPREQUEST) => let* _ := send_ack self env packet in ret PyNone
          | Ok (Some _) => let* _ := log WARNING in ret PyNone
          end
      end
    else ret PyNone.

  (** [self.sessions[xid]] on the [defaultdict]: the entry, created when
      the key is new. *)
Definition sessions_getitem (env : Env) (tx : Z) : M Session.t :=
    fun s =>
      match DHCPServer.sessions s !! tx with
      | Some session => (Ok session, s)
      | None =>
          let session := Session.init env in
          (Ok session,
           DHCPServer.set_sessions (<[tx := session]> (DHCPServer.sessions s)) s)
      end.

  (** The sweep at the end of [_worker], over the snapshot
      [list(self.sessions.items())]. *)
Definition sweep_step (env : Env) (tbl : gmap Z Session.t)
      (entry : Z * Session.t) : gmap Z Session.t :=
    if Session.is_done (snd entry) env
    then delete (fst entry) (alter Session.close (fst entry) tbl)
    else tbl.

Definition sweep_table (env : Env) (tbl : gmap Z Session.t) : gmap Z Session.t :=
    foldl (sweep_step env) tbl (map_to_list tbl).

Definition sweep (env : Env) : M unit :=
    fun s =>
      (Ok tt, DHCPServer.set_sessions (sweep_table env (DHCPServer.sessions s)) s).

  (** The body of the loop over the readable sockets; the log line reads
      the message type of the packet before the session is looked up. *)
Definition handle (env : Env) (d : Datagram) : M unit :=
    match d with
    | RecvOSError => ret tt
    | Undecodable => raise OtherException
    | Decoded packet =>
        match by_code 53 (options packet) with
        | None => raise AttributeError
        | Some m =>
            match value m with
            | Raise e => raise e
            | Ok d =>
                match d !! "dhcp_message_type" with
                | None => raise KeyError
                | Some _ =>
                    let* _ := log INFO in
                    let* session := sessions_getitem env (xid packet) in
                    let* _ := receive session env packet in
                    ret tt
                end
            end
        end
    end.

Fixpoint handle_all (env : Env) (reads : list Datagram) : M unit :=
    match reads with
    | [] => ret tt
    | d :: rest => let* _ := handle env d in handle_all env rest
    end.

  (** [DHCPServer._worker]. *)
Definition _worker (env : Env) (sel : Select) : M unit :=
    match sel with
    | SelectValueError => ret tt
    | Readable reads => let* _ := handle_all env reads in sweep env
    end.

  (** [DHCPServer.stop]; the thread and socket calls are not modelled. *)
Definition stop (s : DHCPServer.t DB) : DHCPServer.t DB :=
    let s := DHCPServer.set_closed true s in
    let s := DHCPServer.set_hosts (flush (DHCPServer.hosts s)) s in
    let s := DHCPServer.set_sessions (Session.close <$> DHCPServer.sessions s) s in
    DHCPServer.emit [Log SUCCESS] s.

  (** The loop of [DHCPServer.start] over a finite run of turns. *)
Fixpoint serve (cycles : list Cycle) (s : DHCPServer.t DB) : DHCPServer.t DB :=
    match cycles with
    | [] => s
    | c :: rest =>
        if DHCPServer.closed s then s
        else
          match c with
          | KeyboardInterrupt => serve rest (stop s)
          | Turn env sel =>
              match _worker env sel s with
              | (Ok _, s') => serve rest s'
              | (Raise _, s') => serve rest (DHCPServer.emit [Log ERROR] s')
              end
          end
    end.

  (** [DHCPServer.start]. *)
Definition start (cycles : list Cycle) (s : DHCPServer.t DB) : DHCPServer.t DB :=
    serve cycles (DHCPServer.emit [Log SUCCESS] s).

End Engine.

(** ** The lease store *)

Module HostDatabase.

  (** Modelled from the spec: [HostDatabase] (dhcp/core/database.py) is not
      among the sources.  The store holds the inclusive allocation range
      and the lease of each MAC address.  Finding or allocating returns the
      address of the lease the MAC already holds (and refreshes its
      hostname and timestamp); otherwise it takes the requested address
      when that lies in the range and is unassigned, else the first
      unassigned address of the range scanned upwards from its start,
      records the new lease and returns the address; it returns 0, and
      records nothing, when the range is exhausted. *)
Record t : Type := {
    range : Z * Z;
    leases : gmap string Host
  }.

Definition init (r : Z * Z) : t := {| range := r; leases := ∅ |}.

Definition assigned (db : t) (a : Z) : bool :=
    bool_decide (map_Exists (fun _ h => ip h = a) (leases db)).

Definition in_range (db : t) (a : Z) : bool :=
    (fst (range db) <=? a) && (a <=? snd (range db)).

Definition scan (db : t) : option Z :=
    List.find (fun a => negb (assigned db a))
              (seqZ (fst (range db)) (snd (range db) - fst (range db) + 1)).

Definition pick (db : t) (requested_ip_hint : PyVal) : option Z :=
    match requested_ip_hint with
    | PyIP a => if in_range db a && negb (assigned db a) then Some a else scan db
    | _ => scan db
    end.

Definition record_lease (db : t) (h : Host) : t :=
    {| range := range db; leases := <[mac h := h]> (leases db) |}.

Definition find_or_allocate (db : t) (env : Env) (m : string)
      (requested_ip_hint name : PyVal) : t * Z :=
    match leases db !! m with
    | Some h =>
        (record_lease db
           {| mac := m; ip := ip h; hostname := name; allocated_at := now env |},
         ip h)
    | None =>
        match pick db requested_ip_hint with
        | Some a =>
            (record_lease db
               {| mac := m; ip := a; hostname := name; allocated_at := now env |},
             a)
        | None => (db, 0)
        end
    end.

  (** Modelled from the spec: [get] is a pure lookup. *)
Definition lookup (db : t) (m : string) : option Host := leases db !! m.

  (** Modelled from the spec: [flush] forces buffered rows to storage; the
      authoritative in-memory view is unchanged. *)
Definition flush_rows (db : t) : t := db.

  (** A call of [find_or_allocate], and a run of calls. *)
Record Call : Type := {
    call_env : Env;
    call_mac : string;
    call_hint : PyVal;
    call_hostname : PyVal
  }.

Definition do_call (db : t) (c : Call) : t :=
    fst (find_or_allocate db (call_env c) (call_mac c) (call_hint c) (call_hostname c)).

Definition run (db : t) (calls : list Call) : t := foldl do_call db calls.

  (** No two MAC addresses hold the same address. *)
Definition injective (db : t) : Prop :=
    forall m1 m2 h1 h2,
      leases db !! m1 = Some h1 -> leases db !! m2 = Some h2 ->
      ip h1 = ip h2 -> m1 = m2.

End HostDatabase.

#[global] Instance HostDatabase_store : HostStore HostDatabase.t := {|
  find_or_register := HostDatabase.find_or_allocate;
  get := HostDatabase.lookup;
  flush := HostDatabase.flush_rows
|}.

(** ** What a call of [broadcast] leaves in the trace *)

(** The entries the [try] of [broadcast] adds for a packet. *)
Definition send_events (env : Env) (conf : CoreConfiguration.t)
    (packet : DHCPPacket) : list Event :=
  match network env with
  | SocketError => []
  | net =>
      if negb (encodes env packet) then [Log ERROR; Log ERROR]
      else
        match net with
        | BindError | FirstSendError => [Log ERROR; Log ERROR]
        | SecondSendError => [SendTo packet ipaddress.ALL_ONES; Log ERROR; Log ERROR]
        | _ =>
            [SendTo packet ipaddress.ALL_ONES;
             SendTo packet (ipaddress.broadcast_address (CoreConfiguration.network conf))]
        end
  end.

Definition broadcast_events (env : Env) (conf : CoreConfiguration.t)
    (packet : DHCPPacket) : list Event :=
  [Log INFO; Broadcast packet] ++ send_events env conf packet.

(** How [broadcast] ends for a packet with a message type. *)
Definition broadcast_result (env : Env) : Result unit :=
  match network env with
  | SocketError => Raise OSError
  | _ => Ok tt
  end.

(** The session [self.sessions[xid]] yields: the entry of the table, or a
    fresh session. *)
Definition session_for {DB} (s : DHCPServer.t DB) (env : Env) (tx : Z) : Session.t :=
  match DHCPServer.sessions s !! tx with
  | Some session => session
  | None => Session.init env
  end.

(** A packet announces the message type [name]. *)
Definition announces (packet : DHCPPacket) (name : string) : Prop :=
  message_type packet = Some (PyStr name).

(** ** The packets the session builds *)

Section Replies.
Context {DB : Type}.
Implicit Types (s : DHCPServer.t DB) (self : Session.t) (packet : DHCPPacket).

(** The reply to [packet] with message type and options [opts] and the
    address [a] in [yiaddr], as the session sends it. *)
Definition reply_packet self env packet s (a : Z) (opts : list DHCPOption) : DHCPPacket :=
  {| op := "BOOTREPLY"; xid := xid packet; secs := seconds_since_start self env;
     ciaddr := 0; yiaddr := a;
     siaddr := CoreConfiguration.dhcp_server_ip (DHCPServer.conf s);
     giaddr := 0; chaddr := chaddr packet; options := opts |}.

(** [send_nak] broadcasts a packet whose only option is the type DHCPNAK. *)
Definition nak_packet self env packet s : DHCPPacket :=
  reply_packet self env packet s (yiaddr packet) [message_type_option "DHCPNAK"].

Definition ack_packet self env packet s (host : Host) : DHCPPacket :=
  reply_packet self env packet s (ip host)
    (message_type_option "DHCPACK" :: CoreConfiguration.options (DHCPServer.conf s)).

Definition offer_packet self env packet s (a : Z) : DHCPPacket :=
  reply_packet self env packet s a
    (message_type_option "DHCPOFFER" :: CoreConfiguration.options (DHCPServer.conf s)).

(** The state a dropped Discover leaves: the store call is recorded, the
    store is the one the call returned. *)
Definition dropped_discover packet (hint name : PyVal) (db' : DB) s : DHCPServer.t DB :=
  DHCPServer.emit
    [StoreFindOrRegister (chaddr packet) hint name]
    (DHCPServer.set_hosts db' s).

(** The state in which [receive] runs for a datagram: the arrival is
    logged and the session of its transaction id is in the table. *)
Definition routed env packet s : DHCPServer.t DB :=
  DHCPServer.set_sessions
    (<[xid packet := session_for s env (xid packet)]> (DHCPServer.sessions s))
    (DHCPServer.emit [Log INFO] s).

End Replies.

(** ** How the methods end *)

Section Outcomes.
Context {DB : Type} `{HostStore DB}.
Implicit Types (s : DHCPServer.t DB) (self : Session.t) (packet : DHCPPacket).

(** [send_nak], once the entries [pre] are in the trace. *)
Definition nak_outcome self env packet s (pre : list Event)
    : Result unit * DHCPServer.t DB :=
  if valid_mac (chaddr packet)
  then (broadcast_result env,
        DHCPServer.emit
          (pre ++ broadcast_events env (DHCPServer.conf s) (nak_packet self env packet s)) s)
  else (Raise DHCPValueError, DHCPServer.emit pre s).

(** The acknowledging branch of [send_ack]. *)
Definition ack_outcome self env packet s (host : Host)
    : Result unit * DHCPServer.t DB :=
  if valid_mac (chaddr packet)
  then match ipaddress.IPv4Address (ip host) with
       | Ok _ =>
           (broadcast_result env,
            DHCPServer.emit
              ([StoreGet (chaddr packet)] ++
               broadcast_events env (DHCPServer.conf s) (ack_packet self env packet s host)) s)
       | Raise e => (Raise e, DHCPServer.emit [StoreGet (chaddr packet)] s)
       end
  else (Raise DHCPValueError, DHCPServer.emit [StoreGet (chaddr packet)] s).

(** Why [receive] raises [e] for [packet], when it does. *)
Definition raise_reason env s packet (e : PyExn) : Prop :=
  (by_code 53 (options packet) = None /\ e = AttributeError)
  \/ (exists c o, (c = 53 \/ c = 50 \/ c = 12)
                  /\ by_code c (options packet) = Some o /\ value o = Raise e)
  \/ (valid_mac (chaddr packet) = false /\ e = DHCPValueError)
  \/ (network env = SocketError /\ e = OSError)
  \/ (e = AddressValueError
      /\ ((exists host, get (DHCPServer.hosts s) (chaddr packet) = Some host
                        /\ ~ 0 <= ip host <= ipaddress.ALL_ONES)
          \/ (exists hint name,
                 offer_req_ip packet = Ok hint /\ offer_hostname packet = Ok name
                 /\ ~ 0 <= snd (find_or_register (DHCPServer.hosts s) env (chaddr packet)
                                  hint name) <= ipaddress.ALL_ONES))).

(** A packet the session can answer in the state [s]: it has a message
    type and a six-octet hardware address, its options 50 and 12 decode,
    the socket can be opened, and the addresses the store holds or hands
    out for it are 32-bit values. *)
Definition answerable env s packet : Prop :=
  message_type packet <> None
  /\ valid_mac (chaddr packet) = true
  /\ network env <> SocketError
  /\ (forall c o e, c = 50 \/ c = 12 ->
        by_code c (options packet) = Some o -> value o <> Raise e)
  /\ (forall host, get (DHCPServer.hosts s) (chaddr packet) = Some host ->
        0 <= ip host <= ipaddress.ALL_ONES)
  /\ (forall hint name,
        offer_req_ip packet = Ok hint -> offer_hostname packet = Ok name ->
        0 <= snd (find_or_register (DHCPServer.hosts s) env (chaddr packet) hint name)
        <= ipaddress.ALL_ONES).

End Outcomes.

(** ** Configurations used in the examples, and the premises of the claims *)

Module ConfigExamples.
Import ipaddress DHCPServerConfiguration.

  (** 10.47.0.0/24 *)
Definition net47 : IPv4Network :=
    {| network_address := 170852352; prefixlen := 24 |}.

Definition with_range (r : Z * Z) (srv : option Z) : t :=
    {| network := net47; range := r; router := "10.47.0.1"; domain := "local";
       lease_time := 300; domain_name_servers := ["1.1.1.1"];
       server_ip := srv |}.

  (** Scenario A: range 10.47.0.1 - 10.47.0.2, server 10.47.0.1. *)
Definition scenario_A : t := with_range (170852353, 170852354) (Some 170852353).

  (** Range 10.47.0.1 - 10.47.0.3, no server address. *)
Definition no_server : t := with_range (170852353, 170852355) None.

  (** Range 10.47.0.1 - 10.47.0.3, server 10.47.0.1. *)
Definition three : t := with_range (170852353, 170852355) (Some 170852353).

  (** Range 10.47.0.10 - 10.47.0.20, server 10.47.0.1. *)
Definition ten_twenty : t := with_range (170852362, 170852372) (Some 170852353).
End ConfigExamples.

(** ** The scenarios of the specification, as concrete inputs *)

Module Scenario.

Definition mac1 : string := "aa:aa:aa:aa:aa:01".
Definition mac2 : string := "aa:aa:aa:aa:aa:02".
Definition mac3 : string := "aa:aa:aa:aa:aa:03".

(** 10.47.0.1 and 10.47.0.2 *)
Definition ip1 : Z := 170852353.
Definition ip2 : Z := 170852354.

Definition conf : CoreConfiguration.t :=
  {| CoreConfiguration.options :=
       [ {| code := 51; value := Ok {[ "lease_time" := PyInt 300 ]} |} ];
     CoreConfiguration.dhcp_server_ip := ip1;
     CoreConfiguration.network := ConfigExamples.net47 |}.

(** The environment in which every clock reading is [t], the network
    works and a packet encodes when its [secs] fit sixteen bits. *)
Definition at_time (t : Q) : Env :=
  {| now := t; clock_start := t; clock_timeout := t; clock_reply := t;
     network := NetworkUp;
     encodes := fun p => (0 <=? secs p) && (secs p <=? 65535) |}.

(** The same with another outcome of the socket calls. *)
Definition with_network (n : Network) (env : Env) : Env :=
  {| now := now env; clock_start := clock_start env;
     clock_timeout := clock_timeout env; clock_reply := clock_reply env;
     network := n; encodes := encodes env |}.

(** A client packet of the given type, with further options. *)
Definition client (ty : string) (m : string) (tx : Z) (extra : list DHCPOption) : DHCPPacket :=
  {| op := "BOOTREQUEST"; xid := tx; secs := 0;
     ciaddr := 0; yiaddr := 0; siaddr := 0; giaddr := 0;
     chaddr := m; options := message_type_option ty :: extra |}.

Definition requested_ip (a : Z) : DHCPOption :=
  {| code := 50; value := Ok {[ "requested_ip_address" := PyIP a ]} |}.

(** An option 50 whose bytes do not decode. *)
Definition broken_requested_ip : DHCPOption :=
  {| code := 50; value := Raise IndexError |}.

(** A hardware address of sixteen octets, as a packet with [hlen] 16 has. *)
Definition long_chaddr : string :=
  "AA:AA:AA:AA:AA:01:00:00:00:00:00:00:00:00:00:00".


(** Scenario A: the range 10.47.0.1 - 10.47.0.2. *)
Definition store_A : HostDatabase.t := HostDatabase.init (ip1, ip2).

Definition call (m : string) : HostDatabase.Call :=
  {| HostDatabase.call_env := at_time 0; HostDatabase.call_mac := m;
     HostDatabase.call_hint := PyIP 0; HostDatabase.call_hostname := PyNone |}.

(** The store after the first two clients were served: the range is used up. *)
Definition store_full : HostDatabase.t := HostDatabase.run store_A [call mac1; call mac2].

Definition server (db : HostDatabase.t) : DHCPServer.t HostDatabase.t :=
  DHCPServer.init conf db (at_time 0).

(** An open session created at time 0, and the same session closed. *)
Definition open_session : Session.t := Session.init (at_time 0).
Definition closed_session : Session.t := Session.close open_session.

(** A server whose table holds [open_session] under transaction id 7. *)
Definition server_with_session : DHCPServer.t HostDatabase.t :=
  DHCPServer.set_sessions {[ 7 := open_session ]} (server store_A).

End Scenario.

(** The claim's premise: both endpoints of the range lie in the network
    and the inclusive range holds at least two addresses. *)
Definition range_in_network (cfg : DHCPServerConfiguration.t) : Prop :=
  ipaddress.contains4 (DHCPServerConfiguration.network cfg)
    (fst (DHCPServerConfiguration.range cfg)) = true /\
  ipaddress.contains4 (DHCPServerConfiguration.network cfg)
    (snd (DHCPServerConfiguration.range cfg)) = true.

Definition addresses_in_range (cfg : DHCPServerConfiguration.t) : Z :=
  snd (DHCPServerConfiguration.range cfg) - fst (DHCPServerConfiguration.range cfg) + 1.

Definition endpoints_32bit (cfg : DHCPServerConfiguration.t) : Prop :=
  0 <= fst (DHCPServerConfiguration.range cfg) <= ipaddress.ALL_ONES /\
  0 <= snd (DHCPServerConfiguration.range cfg) <= ipaddress.ALL_ONES.

(** ** config/dhcp.py: [get_range] *)

(** The network objects [ipaddress] builds: a prefix length between 0 and
    32 and a 32-bit network address without host bits. *)
Definition hostmask (net : ipaddress.IPv4Network) : Z :=
  Z.lxor (ipaddress.netmask net) ipaddress.ALL_ONES.

Definition wf_network (net : ipaddress.IPv4Network) : Prop :=
  0 <= ipaddress.prefixlen net <= 32 /\
  0 <= ipaddress.network_address net <= ipaddress.ALL_ONES /\
  Z.land (ipaddress.network_address net) (hostmask net) = 0.

(** [get_range]: [network_address + 1] and [broadcast_address - 1], as
    integers; adding to an address builds an address again and so fails
    outside 32 bits. *)
Definition get_range (net : ipaddress.IPv4Network) : Result (Z * Z) :=
  match ipaddress.IPv4Address (ipaddress.network_address net + 1) with
  | Raise e => Raise e
  | Ok first_host =>
      match ipaddress.IPv4Address (ipaddress.broadcast_address net - 1) with
      | Raise e => Raise e
      | Ok last_host => Ok (first_host, last_host)
      end
  end.

(** ** config/dhcp.py: [from_dict] *)

Module FromDict.
Import ipaddress.

(** The values a dictionary read from a configuration file holds (numbers
    with a fraction and nested dictionaries are left out). *)
#[warnings="-register-all"] Inductive DictVal : Type :=
| DNone
| DBool (b : bool)
| DInt (n : Z)
| DStr (s : string)
| DList (items : list DictVal).

(** The keyword arguments [from_dict] ends up with: an entry as it came,
    the network object, or the pair of integers of the range. *)
Inductive Kw : Type :=
| KwRaw (v : DictVal)
| KwNetwork (net : IPv4Network)
| KwRange (r : Z * Z).

Inductive Error : Type :=
| KeyError_
| ValueError_
| AddressValueError_
| TypeError_
| IndexError_.

Definition of_result {A} (r : Result A) : Error + A :=
  match r with
  | Ok a => inr a
  | Raise AddressValueError => inl AddressValueError_
  | Raise KeyError => inl KeyError_
  | Raise _ => inl ValueError_
  end.

(** Truth value of an entry, as [if data.get('dhcp_range')] takes it. *)
Definition truthy (v : DictVal) : bool :=
  match v with
  | DNone => false
  | DBool b => b
  | DInt n => negb (n =? 0)
  | DStr s => negb (String.eqb s "")
  | DList items => match items with [] => false | _ => true end
  end.

(** [v[i]]. *)
Definition subscript (v : DictVal) (i : nat) : Error + DictVal :=
  match v with
  | DList items =>
      match nth_error items i with
      | Some x => inr x
      | None => inl IndexError_
      end
  | DStr s =>
      match String.get i s with
      | Some c => inr (DStr (String c ""))
      | None => inl IndexError_
      end
  | _ => inl TypeError_
  end.

(** The field names of the dataclass, and its defaults. *)
Definition field_names : gset string :=
  {[ "network"; "range"; "router"; "domain"; "lease_time";
     "domain_name_servers"; "server_ip" ]}.

Definition defaults : gmap string Kw :=
  let d := DHCPServerConfiguration.default in
  {[ "network" := KwNetwork (DHCPServerConfiguration.network d);
     "range" := KwRange (DHCPServerConfiguration.range d);
     "router" := KwRaw (DStr (DHCPServerConfiguration.router d));
     "domain" := KwRaw (DStr (DHCPServerConfiguration.domain d));
     "lease_time" := KwRaw (DInt (DHCPServerConfiguration.lease_time d));
     "domain_name_servers" :=
       KwRaw (DList (List.map DStr (DHCPServerConfiguration.domain_name_servers d)));
     "server_ip" := KwRaw DNone ]}.

(** The call of [cls] with the dictionary as keyword arguments: the
    generated [__init__] refuses a keyword that is
    not a field ([TypeError]); otherwise the instance has the given
    values and the defaults of the fields not given. *)
Definition dataclass_init (kwargs : gmap string Kw) : Error + gmap string Kw :=
  if bool_decide (dom kwargs ⊆ field_names)
  then inr (kwargs ∪ defaults)
  else inl TypeError_.

Section Parsers.
(** [ipaddress.ip_network(v)] and [IPv4Address(text)] of the standard
    library; [None] when they raise. *)
Variable ip_network_of : DictVal -> option IPv4Network.
Variable IPv4Address_of_string : string -> option Z.

(** [ipaddress.IPv4Address(v)]: an integer is range-checked, anything else
    is read as text. *)
Definition IPv4Address_of (v : DictVal) : Error + Z :=
  match v with
  | DInt n => of_result (IPv4Address n)
  | DBool b => inr (if b then 1 else 0)
  | DStr s =>
      match IPv4Address_of_string s with
      | Some a => inr a
      | None => inl AddressValueError_
      end
  | _ => inl AddressValueError_
  end.

(** The value stored under ['dhcp_range'] before the constructor is called. *)
Definition dhcp_range (data : gmap string DictVal) (net : IPv4Network) : Error + (Z * Z) :=
  match data !! "dhcp_range" with
  | Some r =>
      if truthy r then
        match subscript r 0 with
        | inl e => inl e
        | inr r0 =>
            match IPv4Address_of r0 with
            | inl e => inl e
            | inr s =>
                match subscript r 1 with
                | inl e => inl e
                | inr r1 =>
                    match IPv4Address_of r1 with
                    | inl e => inl e
                    | inr e => inr (s, e)
                    end
                end
            end
        end
      else of_result (get_range net)
  | None => of_result (get_range net)
  end.

(** [DHCPServerConfiguration.from_dict]. *)
Definition from_dict (data : gmap string DictVal) : Error + gmap string Kw :=
  match data !! "network" with
  | None => inl KeyError_
  | Some v =>
      match ip_network_of v with
      | None => inl ValueError_
      | Some net =>
          match dhcp_range data net with
          | inl e => inl e
          | inr r =>
              dataclass_init
                (<["dhcp_range" := KwRange r]>
                   (<["network" := KwNetwork net]> (KwRaw <$> data)))
          end
      end
  end.

End Parsers.
End FromDict.

(** ** config/database.py *)

Module DataBaseConfiguration.

Record t : Type := {
  driver : string;
  database : string;
  host : option string;
  port : option Z;
  user : option string;
  password : option string
}.

Definition default : t :=
  {| driver := "sqlite"; database := "nextdhcp.db";
     host := None; port := None; user := None; password := None |}.

Inductive Exn : Type := InvalidDatabaseConfiguration.

(** The [config] dictionary handed to the client/server engines. *)
Record EngineConfig : Type := {
  config_database : string;
  config_host : option string;
  config_port : option Z;
  config_user : option string;
  config_password : option string
}.

Inductive Engine : Type :=
| SQLiteEngine (path : string)
| PostgresEngine (config : EngineConfig)
| CockroachEngine (config : EngineConfig).

Definition engine_config (self : t) : EngineConfig :=
  {| config_database := database self; config_host := host self;
     config_port := port self; config_user := user self;
     config_password := password self |}.

(** [driver in ("sqlite", "psql", "cockdb")]. *)
Definition supported (d : string) : bool :=
  String.eqb d "sqlite" || String.eqb d "psql" || String.eqb d "cockdb".

(** [check]. *)
Definition check (self : t) : Exn + unit :=
  if negb (supported (driver self)) then inl InvalidDatabaseConfiguration else inr tt.

(** [__post_init__]: the value of [self._engine] afterwards, [None] when
    no branch assigned it. *)
Definition post_init (self : t) : Exn + option Engine :=
  match check self with
  | inl e => inl e
  | inr _ =>
      inr (if String.eqb (driver self) "sqlite" then Some (SQLiteEngine (database self))
           else if String.eqb (driver self) "psql"
                then Some (PostgresEngine (engine_config self))
           else if String.eqb (driver self) "cockdb"
                then Some (CockroachEngine (engine_config self))
           else None)
  end.

(** The [engine] property: [self._engine], an [AttributeError] when unset. *)
Definition engine (_engine : option Engine) : Result Engine :=
  match _engine with
  | Some e => Ok e
  | None => Raise AttributeError
  end.

End DataBaseConfiguration.

(** ** config/__init__.py *)

Module Config.

(** [_read_environment], over [os.environ]: the driver named by
    [DB_DRIVER] is tested; the other variables are read and dropped. *)
Definition _read_environment (environ : gmap string string) : Result unit :=
  let db_driver := environ !! "DB_DRIVER" in
  let known := match db_driver with
               | Some d => DataBaseConfiguration.supported d
               | None => false
               end in
  if negb known then Raise ValueError else Ok tt.

End Config.

(** ** Notions used to state what the engine sends *)

(** The [Broadcast] entries of a trace: the calls of [DHCPServer.broadcast]. *)
Definition broadcasts (evs : list Event) : list DHCPPacket :=
  List.flat_map (fun e => match e with Broadcast p => [p] | _ => [] end) evs.

(** The packets handed to [sendto]. *)
Definition sent_packets (evs : list Event) : list DHCPPacket :=
  List.flat_map (fun e => match e with SendTo p _ => [p] | _ => [] end) evs.

(** A reply to [packet]: a BOOTREPLY with its transaction id and hardware
    address, and the server address in [siaddr]. *)
Definition replies_to (conf : CoreConfiguration.t) (packet p : DHCPPacket) : Prop :=
  op p = "BOOTREPLY" /\ xid p = xid packet /\ chaddr p = chaddr packet
  /\ siaddr p = CoreConfiguration.dhcp_server_ip conf.

(** [member.name] for the members of [DHCPMessages]. *)
Definition DHCPMessages_name (m : DHCPMessages) : string :=
  match m with
  | DHCPDISCOVER => "DHCPDISCOVER"
  | DHCPOFFER => "DHCPOFFER"
  | DHCPREQUEST => "DHCPREQUEST"
  | DHCPDECLINE => "DHCPDECLINE"
  | DHCPACK => "DHCPACK"
  | DHCPNAK => "DHCPNAK"
  | DHCPRELEASE => "DHCPRELEASE"
  | DHCPINFORM => "DHCPINFORM"
  end.

(** [member.value]. *)
Definition DHCPMessages_value (m : DHCPMessages) : Z :=
  match m with
  | DHCPDISCOVER => 1
  | DHCPOFFER => 2
  | DHCPREQUEST => 3
  | DHCPDECLINE => 4
  | DHCPACK => 5
  | DHCPNAK => 6
  | DHCPRELEASE => 7
  | DHCPINFORM => 8
  end.

(** A datagram the cycle can handle: a failed read, or a decoded packet
    that carries a message type. *)
Definition handled (d : Datagram) : Prop :=
  match d with
  | RecvOSError => True
  | Undecodable => False
  | Decoded packet => message_type packet <> None
  end.

Section ReceiveOutcomes.
Context {DB : Type} `{HostStore DB}.
Implicit Types (s : DHCPServer.t DB) (self : Session.t) (packet : DHCPPacket).

(** What [receive] can leave for [packet]: its result [r], the store [db]
    of the server afterwards and the entries [evs] it adds to the trace.
    The store is the old one unless a Discover reached the store call; an
    exception has one of the reasons of [raise_reason] and nothing was
    sent before it; an answerable packet raises none; at most one packet
    is broadcast, and what is broadcast or sent is a reply to [packet]. *)
Definition receive_leaves self env packet s
    (r : Result PyVal) (db : DB) (evs : list Event) : Prop :=
  (db = DHCPServer.hosts s
   \/ (Session.closed self = false /\ op packet = "BOOTREQUEST"
       /\ announces packet "DHCPDISCOVER"
       /\ exists hint name,
            offer_req_ip packet = Ok hint /\ offer_hostname packet = Ok name
            /\ db = fst (find_or_register (DHCPServer.hosts s) env (chaddr packet)
                           hint name)))
  /\ (forall e, r = Raise e ->
        raise_reason env s packet e /\ sent_packets evs = []
        /\ Session.closed self = false /\ op packet = "BOOTREQUEST")
  /\ (answerable env s packet -> exists v, r = Ok v)
  /\ (broadcasts evs = []
      \/ exists p, broadcasts evs = [p] /\ replies_to (DHCPServer.conf s) packet p)
  /\ Forall (replies_to (DHCPServer.conf s) packet) (sent_packets evs).

(** The datagrams of a cycle that are failed reads or packets, each packet
    answerable in the state in which the loop comes to it. *)
Fixpoint answerable_all env (reads : list Datagram) s : Prop :=
  match reads with
  | [] => True
  | RecvOSError :: rest => answerable_all env rest s
  | Undecodable :: _ => False
  | Decoded packet :: rest =>
      answerable env s packet
      /\ answerable_all env rest (snd (handle env (Decoded packet) s))
  end.

End ReceiveOutcomes.

Example ip_int_from_string_ex :
  ipaddress.ip_int_from_string "10.47.0.1" = Some 170852353.
Proof. reflexivity. Qed.

Example ip_int_from_string_bad :
  ipaddress.ip_int_from_string "10.47.0.256" = None /\
  ipaddress.ip_int_from_string "10.47.01.2" = None /\
  ipaddress.ip_int_from_string "10.47.0" = None.
Proof. repeat split; reflexivity. Qed.

(** * Properties *)

(** ** Configuration: [check] and [in_range] *)

Lemma IPv4Address_ok n :
  0 <= n <= ipaddress.ALL_ONES -> ipaddress.IPv4Address n = Ok n.
Proof.
  intros [Hlo Hhi]. unfold ipaddress.IPv4Address.
  destruct (Z.ltb_spec n 0); [lia|].
  destruct (Z.ltb_spec ipaddress.ALL_ONES n); [lia|]. reflexivity.
Qed.

Section CheckFacts.
Import DHCPServerConfiguration.
Variable parse : string -> option Z.

Lemma check_no_server cfg :
    server_ip cfg = None -> check parse cfg = ([], Raise InvalidDHCPConfiguration).
  Proof. intros E. unfold check. now rewrite E. Qed.

  (** With a server address and 32-bit endpoints, [check] is decided by
      the three tests it makes, in this order. *)
Lemma check_with_server cfg srv :
    server_ip cfg = Some srv -> endpoints_32bit cfg ->
    check parse cfg =
      if negb (ipaddress.contains4 (network cfg) (fst (range cfg)))
         || negb (ipaddress.contains4 (network cfg) (snd (range cfg)))
      then ([SUCCESS], Raise InvalidDHCPConfiguration)
      else if dhcp_range_len cfg <? 2
      then ([SUCCESS], Raise InvalidDHCPConfiguration)
      else match parse (router cfg) with
           | None => ([SUCCESS], Raise AddressValueError)
           | Some r =>
               if negb (ipaddress.contains4 (network cfg) r)
               then ([SUCCESS; WARNING], Ok tt)
               else ([SUCCESS], Ok tt)
           end.
  Proof.
    intros E [Hs He]. unfold check. rewrite E.
    rewrite (IPv4Address_ok _ Hs), (IPv4Address_ok _ He). reflexivity.
  Qed.

  (** C3 (amended): for a configuration whose range endpoints are 32-bit
      values, [check] succeeds when a server address is set, both
      endpoints lie in the network, end - start >= 2 and the router text is
      an address; it raises [InvalidDHCPConfiguration] when no server
      address is set, or an endpoint lies outside the network, or the
      range holds fewer than two addresses. *)
Theorem check_accepts_and_rejects cfg :
    endpoints_32bit cfg ->
    (server_ip cfg <> None -> range_in_network cfg ->
     2 <= snd (range cfg) - fst (range cfg) ->
     parse (router cfg) <> None ->
     snd (check parse cfg) = Ok tt)
    /\
    (server_ip cfg = None \/ ~ range_in_network cfg \/ addresses_in_range cfg < 2 ->
     snd (check parse cfg) = Raise InvalidDHCPConfiguration).
  Proof.
    intros Hw. split.
    - intros Hsrv [Hs He] Hlen Hr.
      destruct (server_ip cfg) as [srv|] eqn:E; [|congruence].
      rewrite (check_with_server cfg srv E Hw), Hs, He. cbn [negb orb].
      unfold dhcp_range_len. destruct (Z.ltb_spec (snd (range cfg) - fst (range cfg)) 2); [lia|].
      destruct (parse (router cfg)) as [r|]; [|congruence].
      now destruct (negb _).
    - intros Hbad.
      destruct (server_ip cfg) as [srv|] eqn:E.
      2:{ now rewrite check_no_server. }
      rewrite (check_with_server cfg srv E Hw).
      destruct (ipaddress.contains4 (network cfg) (fst (range cfg))) eqn:Hs; [|reflexivity].
      destruct (ipaddress.contains4 (network cfg) (snd (range cfg))) eqn:He; [|reflexivity].
      cbn [negb orb].
      destruct Hbad as [Hbad|[Hbad|Hbad]]; [congruence| |].
      + exfalso. apply Hbad. split; assumption.
      + unfold addresses_in_range in Hbad. unfold dhcp_range_len.
        destruct (Z.ltb_spec (snd (range cfg) - fst (range cfg)) 2); [reflexivity|lia].
  Qed.
End CheckFacts.

(** C3, witness: the range 10.47.0.1 - 10.47.0.3 with a server address passes. *)
Lemma check_accepts_and_rejects_witness :
  snd (DHCPServerConfiguration.check ipaddress.ip_int_from_string ConfigExamples.three) = Ok tt.
Proof.
  refine (proj1 (check_accepts_and_rejects ipaddress.ip_int_from_string
                   ConfigExamples.three _) _ _ _ _).
  - unfold endpoints_32bit; vm_compute; intuition discriminate.
  - discriminate.
  - split; reflexivity.
  - vm_compute; discriminate.
  - discriminate.
Defined.

(** C3, counterexample: two configurations that satisfy the premise of the
    claim (endpoints inside the network, at least two addresses in the
    range) and are rejected: Scenario A, whose range holds exactly two
    addresses, and a three-address range without a server address. *)
Lemma check_rejects_claimed_valid :
  (range_in_network ConfigExamples.scenario_A /\
   addresses_in_range ConfigExamples.scenario_A = 2 /\
   DHCPServerConfiguration.check ipaddress.ip_int_from_string ConfigExamples.scenario_A
     = ([SUCCESS], Raise InvalidDHCPConfiguration))
  /\
  (range_in_network ConfigExamples.no_server /\
   addresses_in_range ConfigExamples.no_server = 3 /\
   DHCPServerConfiguration.check ipaddress.ip_int_from_string ConfigExamples.no_server
     = ([], Raise InvalidDHCPConfiguration)).
Proof. repeat split. Qed.

(** [in_range] is membership in the network, not in the range. *)
Lemma in_range_is_network_membership cfg a :
  0 <= a <= ipaddress.ALL_ONES ->
  DHCPServerConfiguration.in_range cfg a
  = Ok (ipaddress.contains4 (DHCPServerConfiguration.network cfg) a).
Proof.
  intros Ha. unfold DHCPServerConfiguration.in_range, ipaddress.ip_address.
  now rewrite (IPv4Address_ok _ Ha).
Qed.

(** C2: on a configuration that [check] accepts (network 10.47.0.0/24,
    range 10.47.0.10 - 10.47.0.20), [in_range] accepts 10.47.0.200, which
    lies outside the inclusive allocation range. *)
Theorem in_range_accepts_address_outside_range :
  snd (DHCPServerConfiguration.check ipaddress.ip_int_from_string ConfigExamples.ten_twenty)
    = Ok tt /\
  DHCPServerConfiguration.in_range ConfigExamples.ten_twenty 170852552 = Ok true /\
  ~ DHCPServerConfiguration.within_range ConfigExamples.ten_twenty 170852552.
Proof.
  split; [reflexivity|]. split; [reflexivity|].
  unfold DHCPServerConfiguration.within_range. cbn. lia.
Qed.

(** ** The engine: [Session.receive] and what it calls *)

Lemma emit_emit {DB} (e1 e2 : list Event) (s : DHCPServer.t DB) :
  DHCPServer.emit e2 (DHCPServer.emit e1 s) = DHCPServer.emit (e1 ++ e2) s.
Proof. unfold DHCPServer.emit; cbn. now rewrite <- app_assoc. Qed.

Lemma emit_set_hosts {DB} (e : list Event) (db : DB) (s : DHCPServer.t DB) :
  DHCPServer.set_hosts db (DHCPServer.emit e s) = DHCPServer.emit e (DHCPServer.set_hosts db s).
Proof. reflexivity. Qed.

Lemma message_type_reply {DB} self env packet (s : DHCPServer.t DB) a name opts :
  message_type (reply_packet self env packet s a (message_type_option name :: opts))
  = Some (PyStr name).
Proof. unfold message_type; cbn. apply lookup_singleton_eq. Qed.

Lemma DHCPMessages_getitem_discover ty :
  DHCPMessages_getitem ty = Some DHCPDISCOVER <-> ty = PyStr "DHCPDISCOVER".
Proof.
  split; [|intros ->; reflexivity].
  destruct ty as [| |n| |]; cbn; try discriminate.
  repeat (match goal with
          | |- context [String.eqb ?a ?b] => destruct (String.eqb_spec a b)
          end; [first [congruence | discriminate]|]).
  discriminate.
Qed.

Lemma DHCPMessages_getitem_request ty :
  DHCPMessages_getitem ty = Some DHCPREQUEST <-> ty = PyStr "DHCPREQUEST".
Proof.
  split; [|intros ->; reflexivity].
  destruct ty as [| |n| |]; cbn; try discriminate.
  repeat (match goal with
          | |- context [String.eqb ?a ?b] => destruct (String.eqb_spec a b)
          end; [first [congruence | discriminate]|]).
  discriminate.
Qed.

(** The constructors on a six-octet address. *)
Lemma reply_valid name mac_addr seconds tx a opts :
  valid_mac mac_addr = true ->
  reply name mac_addr seconds tx (Ok a) opts
  = Ok {| op := "BOOTREPLY"; xid := tx; secs := seconds;
          ciaddr := 0; yiaddr := a; siaddr := 0; giaddr := 0;
          chaddr := mac_addr; options := message_type_option name :: opts |}.
Proof. intros Hm. unfold reply. now rewrite Hm. Qed.

Lemma reply_invalid name mac_addr seconds tx yi opts :
  valid_mac mac_addr = false ->
  reply name mac_addr seconds tx yi opts = Raise DHCPValueError.
Proof. intros Hm. unfold reply. now rewrite Hm. Qed.

Section EngineFacts.
Context {DB : Type} `{HostStore DB}.
Implicit Types (s : DHCPServer.t DB) (self : Session.t) (packet : DHCPPacket).

Lemma message_type_inv packet ty :
  message_type packet = Some ty ->
  exists m d, by_code 53 (options packet) = Some m /\ value m = Ok d
              /\ d !! "dhcp_message_type" = Some ty.
Proof.
  unfold message_type. destruct (by_code 53 (options packet)) as [m|]; [|discriminate].
  destruct (value m) as [d|e] eqn:Ev; [|discriminate]. eauto.
Qed.

Lemma broadcast_typed env packet ty s :
  message_type packet = Some ty ->
  broadcast env packet s
  = (broadcast_result env,
     DHCPServer.emit (broadcast_events env (DHCPServer.conf s) packet) s).
Proof.
  intros Hty. destruct (message_type_inv packet ty Hty) as (m & d & Hm & Hv & Hd).
  unfold broadcast. rewrite Hm, Hv, Hd.
  unfold broadcast_result, broadcast_events, send_events, log_failure,
    bind, log, event, read_conf, raise.
  destruct (network env); cbn; rewrite ?emit_emit; try reflexivity;
    destruct (encodes env packet); cbn; now rewrite ?emit_emit.
Qed.

Lemma nak_packet_type self env packet s :
  announces (nak_packet self env packet s) "DHCPNAK".
Proof. apply message_type_reply. Qed.

Lemma ack_packet_type self env packet s host :
  announces (ack_packet self env packet s host) "DHCPACK".
Proof. apply message_type_reply. Qed.

Lemma offer_packet_type self env packet s a :
  announces (offer_packet self env packet s a) "DHCPOFFER".
Proof. apply message_type_reply. Qed.

Lemma send_nak_eq self env packet s :
  send_nak self env packet s = nak_outcome self env packet s [].
Proof.
  unfold send_nak, nak_outcome, Ack.
  destruct (valid_mac (chaddr packet)) eqn:Hm.
  - rewrite (reply_valid _ _ _ _ _ _ Hm). unfold bind, read_conf.
    now rewrite (broadcast_typed env _ (PyStr "DHCPNAK")) by apply nak_packet_type.
  - rewrite (reply_invalid _ _ _ _ _ _ Hm). unfold raise.
    destruct s. unfold DHCPServer.emit. cbn. now rewrite app_nil_r.
Qed.

Lemma nak_outcome_after self env packet s (pre : list Event) :
  nak_outcome self env packet (DHCPServer.emit pre s) []
  = nak_outcome self env packet s pre.
Proof.
  unfold nak_outcome. destruct (valid_mac (chaddr packet)).
  - rewrite emit_emit. reflexivity.
  - rewrite emit_emit. now rewrite app_nil_r.
Qed.

Lemma send_ack_eq self env packet s :
  send_ack self env packet s
  = match get (DHCPServer.hosts s) (chaddr packet) with
    | None => nak_outcome self env packet s [StoreGet (chaddr packet); Log ERROR]
    | Some host =>
        match by_code 50 (options packet) with
        | Some req_ip =>
            match value req_ip with
            | Raise e => (Raise e, DHCPServer.emit [StoreGet (chaddr packet)] s)
            | Ok d =>
                if decide (d !! "requested_ip_address" = Some (PyIP (ip host)))
                then ack_outcome self env packet s host
                else nak_outcome self env packet s [StoreGet (chaddr packet); Log ERROR]
            end
        | None => ack_outcome self env packet s host
        end
    end.
Proof.
  unfold send_ack, bind at 1, hosts_get.
  assert (forall pre,
            bind (log ERROR) (fun _ => send_nak self env packet) (DHCPServer.emit pre s)
            = nak_outcome self env packet s (pre ++ [Log ERROR])) as Hnak.
  { intros pre. unfold bind, log. rewrite send_nak_eq, emit_emit.
    apply nak_outcome_after. }
  assert (forall host,
            bind read_conf
              (fun conf =>
                 match Ack (chaddr packet) (seconds_since_start self env) (xid packet)
                           (ipaddress.IPv4Address (ip host))
                           (CoreConfiguration.options conf) with
                 | Raise e => raise e
                 | Ok ack =>
                     broadcast env
                       (set_siaddr (CoreConfiguration.dhcp_server_ip conf) ack)
                 end)
              (DHCPServer.emit [StoreGet (chaddr packet)] s)
            = ack_outcome self env packet s host) as Hack.
  { intros host. unfold bind, read_conf, ack_outcome, Ack, reply.
    destruct (valid_mac (chaddr packet)); [|reflexivity].
    destruct (ipaddress.IPv4Address (ip host)) as [a|e] eqn:Ea; [|reflexivity].
    assert (a = ip host) as ->.
    { unfold ipaddress.IPv4Address in Ea. destruct (_ || _); congruence. }
    rewrite (broadcast_typed env _ (PyStr "DHCPACK"))
      by apply (ack_packet_type self env packet s host).
    now rewrite emit_emit. }
  destruct (get (DHCPServer.hosts s) (chaddr packet)) as [host|].
  - destruct (by_code 50 (options packet)) as [req_ip|]; [|apply Hack].
    unfold value_get. destruct (value req_ip) as [d|e]; [|reflexivity].
    unfold py_eqb, dict_get.
    destruct (decide (d !! "requested_ip_address" = Some (PyIP (ip host)))) as [Heq|Hne].
    + rewrite Heq. rewrite bool_decide_eq_true_2 by reflexivity. apply Hack.
    + rewrite bool_decide_eq_false_2; [apply (Hnak [StoreGet (chaddr packet)])|].
      destruct (d !! "requested_ip_address"); congruence.
  - apply (Hnak [StoreGet (chaddr packet)]).
Qed.

End EngineFacts.

(** Reading an option that does not decode. *)
Lemma value_get_raise o key e : value_get o key = Raise e -> value o = Raise e.
Proof. unfold value_get. destruct (value o); [discriminate|congruence]. Qed.

Lemma offer_req_ip_raise packet e :
  offer_req_ip packet = Raise e ->
  exists o, by_code 50 (options packet) = Some o /\ value o = Raise e.
Proof.
  unfold offer_req_ip. destruct (by_code 50 (options packet)) as [o|]; [|discriminate].
  intros Hv. exists o. split; [reflexivity|]. exact (value_get_raise _ _ _ Hv).
Qed.

Lemma offer_hostname_raise packet e :
  offer_hostname packet = Raise e ->
  exists o, by_code 12 (options packet) = Some o /\ value o = Raise e.
Proof.
  unfold offer_hostname. destruct (by_code 12 (options packet)) as [o|]; [|discriminate].
  intros Hv. exists o. split; [reflexivity|]. exact (value_get_raise _ _ _ Hv).
Qed.

Section SessionClaims.
Context {DB : Type} `{HostStore DB}.
Implicit Types (s : DHCPServer.t DB) (self : Session.t) (packet : DHCPPacket).

(** How [receive] dispatches a client message of an open session. *)
Lemma receive_open_request self env packet s message :
  Session.closed self = false ->
  op packet = "BOOTREQUEST" ->
  by_code 53 (options packet) = Some message ->
  receive self env packet s
  = match lookup_message message with
    | Raise e => (Raise e, s)
    | Ok None => (Ok (PyBool false), DHCPServer.emit [Log WARNING] s)
    | Ok (Some DHCPDISCOVER) => bind (send_offer self env packet) (fun _ => ret PyNone) s
    | Ok (Some DHCPREQUEST) => bind (send_ack self env packet) (fun _ => ret PyNone) s
    | Ok (Some _) => (Ok PyNone, DHCPServer.emit [Log WARNING] s)
    end.
Proof.
  intros Hopen Hop Hm. unfold receive. rewrite Hopen, Hop, Hm.
  change ("BOOTREQUEST" =? "BOOTREQUEST")%string with true. cbv iota.
  destruct (lookup_message message) as [[[]|]|e]; reflexivity.
Qed.

Lemma lookup_message_typed packet message ty :
  by_code 53 (options packet) = Some message ->
  message_type packet = Some ty ->
  lookup_message message = Ok (DHCPMessages_getitem ty).
Proof.
  intros Hm Hty. destruct (message_type_inv packet ty Hty) as (m & d & Hm' & Hv & Hd).
  rewrite Hm in Hm'. injection Hm' as <-.
  unfold lookup_message. now rewrite Hv, Hd.
Qed.

Lemma receive_open_typed self env packet s ty :
  Session.closed self = false ->
  op packet = "BOOTREQUEST" ->
  message_type packet = Some ty ->
  receive self env packet s
  = match DHCPMessages_getitem ty with
    | None => (Ok (PyBool false), DHCPServer.emit [Log WARNING] s)
    | Some DHCPDISCOVER => bind (send_offer self env packet) (fun _ => ret PyNone) s
    | Some DHCPREQUEST => bind (send_ack self env packet) (fun _ => ret PyNone) s
    | Some _ => (Ok PyNone, DHCPServer.emit [Log WARNING] s)
    end.
Proof.
  intros Hopen Hop Hty.
  destruct (message_type_inv packet ty Hty) as (m & d & Hm & _ & _).
  rewrite (receive_open_request self env packet s m Hopen Hop Hm).
  now rewrite (lookup_message_typed packet m ty Hm Hty).
Qed.

Lemma IPv4Address_inv a b : ipaddress.IPv4Address a = Ok b -> a = b.
Proof. unfold ipaddress.IPv4Address. destruct (_ || _); congruence. Qed.

Lemma broadcasts_app (l1 l2 : list Event) :
  broadcasts (l1 ++ l2) = (broadcasts l1 ++ broadcasts l2)%list.
Proof. unfold broadcasts. apply List.flat_map_app. Qed.

Lemma sent_packets_app (l1 l2 : list Event) :
  sent_packets (l1 ++ l2) = (sent_packets l1 ++ sent_packets l2)%list.
Proof. unfold sent_packets. apply List.flat_map_app. Qed.

Lemma broadcasts_broadcast_events env conf p :
  broadcasts (broadcast_events env conf p) = [p].
Proof.
  unfold broadcast_events, send_events.
  destruct (network env); try reflexivity; destruct (encodes env p); reflexivity.
Qed.

Lemma sent_broadcast_events_up env conf p :
  network env = NetworkUp -> encodes env p = true ->
  sent_packets (broadcast_events env conf p) = [p; p].
Proof.
  intros Hn He. unfold broadcast_events, send_events. now rewrite Hn, He.
Qed.

Lemma broadcast_result_ok env : network env <> SocketError -> broadcast_result env = Ok tt.
Proof. unfold broadcast_result. destruct (network env); congruence. Qed.


Lemma receive_closed self env packet s :
  Session.closed self = true -> receive self env packet s = (Ok PyNone, s).
Proof. intros Hc. unfold receive. now rewrite Hc. Qed.

(** C9: a closed session ignores every message: [receive] returns at once
    and the server state is what it was, so the sessions and the lease
    store are untouched and the trace has no new entry (no call of the
    store, no broadcast). *)
Theorem receive_closed_is_noop self env packet s :
  Session.closed self = true ->
  receive self env packet s = (Ok PyNone, s)
  /\ DHCPServer.effects (snd (receive self env packet s)) = DHCPServer.effects s
  /\ DHCPServer.hosts (snd (receive self env packet s)) = DHCPServer.hosts s
  /\ DHCPServer.sessions (snd (receive self env packet s)) = DHCPServer.sessions s.
Proof. intros Hc. now rewrite (receive_closed self env packet s Hc). Qed.

(** C7: a message with a message-type option whose type is neither Discover
    nor Request is discarded: [receive] raises nothing and changes nothing
    but the log, to which an open session adds one warning for a client
    message; no broadcast is attempted and the store is not called.  The
    value of the option is one the library computes, or one for which it
    raises the [KeyError] that [receive] catches. *)
Theorem receive_other_type_is_discarded self env packet s :
  by_code 53 (options packet) <> None ->
  (forall m e, by_code 53 (options packet) = Some m -> value m = Raise e -> e = KeyError) ->
  (forall ty, message_type packet = Some ty ->
     ty <> PyStr "DHCPDISCOVER" /\ ty <> PyStr "DHCPREQUEST") ->
  exists r,
    (receive self env packet s = (Ok r, s) \/
     receive self env packet s = (Ok r, DHCPServer.emit [Log WARNING] s))
    /\ (Session.closed self = false -> op packet = "BOOTREQUEST" ->
        receive self env packet s = (Ok r, DHCPServer.emit [Log WARNING] s)).
Proof.
  intros Hopt Hval Hty.
  destruct (Session.closed self) eqn:Hopen.
  { exists PyNone. rewrite (receive_closed _ _ _ _ Hopen).
    split; [now left|discriminate]. }
  destruct (String.eqb_spec (op packet) "BOOTREQUEST") as [Hop|Hop].
  2:{ exists PyNone.
      assert (receive self env packet s = (Ok PyNone, s)) as ->.
      { unfold receive. rewrite Hopen.
        destruct (String.eqb_spec (op packet) "BOOTREQUEST"); [contradiction|reflexivity]. }
      split; [now left|]. intros _ Hop'. contradiction. }
  destruct (by_code 53 (options packet)) as [message|] eqn:Hm; [|contradiction].
  rewrite (receive_open_request self env packet s message Hopen Hop Hm).
  unfold message_type in Hty. rewrite Hm in Hty. unfold lookup_message.
  destruct (value message) as [d|e] eqn:Hv.
  - destruct (d !! "dhcp_message_type") as [ty|].
    + destruct (Hty ty eq_refl) as [Hd Hr].
      destruct (DHCPMessages_getitem ty) as [[]|] eqn:Hg;
        try (eexists; split; [right; reflexivity|reflexivity]).
      * apply DHCPMessages_getitem_discover in Hg. contradiction.
      * apply DHCPMessages_getitem_request in Hg. contradiction.
    + eexists; split; [right; reflexivity|reflexivity].
  - rewrite (Hval message e eq_refl Hv).
    eexists; split; [right; reflexivity|reflexivity].
Qed.

(** What [send_offer] does once both options are read. *)
Lemma send_offer_eq self env packet s hint name :
  offer_req_ip packet = Ok hint -> offer_hostname packet = Ok name ->
  send_offer self env packet s
  = let (db, a) := find_or_register (DHCPServer.hosts s) env (chaddr packet) hint name in
    let called := StoreFindOrRegister (chaddr packet) hint name in
    if a =? 0
    then (Ok tt, DHCPServer.emit [called] (DHCPServer.set_hosts db s))
    else if valid_mac (chaddr packet)
    then match ipaddress.IPv4Address a with
         | Ok _ =>
             (broadcast_result env,
              DHCPServer.emit
                (called :: broadcast_events env (DHCPServer.conf s)
                             (offer_packet self env packet s a))
                (DHCPServer.set_hosts db s))
         | Raise e => (Raise e, DHCPServer.emit [called] (DHCPServer.set_hosts db s))
         end
    else (Raise DHCPValueError, DHCPServer.emit [called] (DHCPServer.set_hosts db s)).
Proof.
  intros Hh Hn. unfold send_offer. rewrite Hh, Hn.
  unfold bind, hosts_find_or_register.
  destruct (find_or_register _ _ _ _ _) as [db a].
  destruct (a =? 0); [reflexivity|].
  unfold read_conf, Offer, reply.
  destruct (valid_mac (chaddr packet)); [|reflexivity].
  destruct (ipaddress.IPv4Address a) as [a'|e] eqn:Ea; [|reflexivity].
  apply IPv4Address_inv in Ea. subst a'.
  rewrite (broadcast_typed env _ (PyStr "DHCPOFFER"))
    by apply (offer_packet_type self env packet (DHCPServer.set_hosts db s) a).
  now rewrite emit_emit.
Qed.

(** An option that does not decode stops [send_offer] before the store
    is called. *)
Lemma send_offer_undecoded self env packet s e :
  offer_req_ip packet = Raise e
  \/ ((exists hint, offer_req_ip packet = Ok hint) /\ offer_hostname packet = Raise e) ->
  send_offer self env packet s = (Raise e, s).
Proof.
  unfold send_offer. intros [->|[[hint ->] ->]]; reflexivity.
Qed.

Lemma receive_open_discover self env packet s :
  Session.closed self = false ->
  op packet = "BOOTREQUEST" ->
  announces packet "DHCPDISCOVER" ->
  receive self env packet s = bind (send_offer self env packet) (fun _ => ret PyNone) s.
Proof.
  intros Hopen Hop Hty.
  now rewrite (receive_open_typed self env packet s _ Hopen Hop Hty).
Qed.

(** The hint of [send_offer] is [ciaddr] without option 50 and the entry
    of the option's dictionary with it. *)
Lemma offer_req_ip_hint packet hint :
  offer_req_ip packet = Ok hint ->
  (by_code 50 (options packet) = None -> hint = PyIP (ciaddr packet))
  /\ (forall req_ip d,
        by_code 50 (options packet) = Some req_ip -> value req_ip = Ok d ->
        hint = match d !! "requested_ip_address" with
               | Some v => v
               | None => PyNone
               end).
Proof.
  unfold offer_req_ip, value_get.
  destruct (by_code 50 (options packet)) as [req_ip|].
  - destruct (value req_ip) as [d|e] eqn:Hd; [|discriminate].
    intros [= <-]. split; [discriminate|].
    intros req_ip' d' [= <-] Hd'. rewrite Hd in Hd'. now injection Hd' as <-.
  - intros [= <-]. split; [reflexivity|discriminate].
Qed.

Lemma broadcast_events_no_store env conf p :
  Forall (fun e => is_store_access e = false) (broadcast_events env conf p).
Proof.
  unfold broadcast_events, send_events.
  destruct (network env), (encodes env p); repeat constructor.
Qed.

(** C10: for a Discover received by an open session, every call of the
    store has the MAC address of the packet and, as requested-IP hint, the
    packet's [ciaddr] when option 50 is absent and the value option 50
    holds under ['requested_ip_address'] when it is present.  When the
    options 50 and 12, where present, decode, the store is called, once
    and before anything else, and the store the server holds afterwards
    is the one that call returns. *)
Theorem discover_hint_is_ciaddr_or_option_50 self env packet s :
  Session.closed self = false ->
  op packet = "BOOTREQUEST" ->
  announces packet "DHCPDISCOVER" ->
  exists evs,
    DHCPServer.effects (snd (receive self env packet s))
    = (DHCPServer.effects s ++ evs)%list
    /\ (forall m hint name,
          In (StoreFindOrRegister m hint name) evs ->
          m = chaddr packet
          /\ (by_code 50 (options packet) = None -> hint = PyIP (ciaddr packet))
          /\ (forall req_ip d,
                by_code 50 (options packet) = Some req_ip -> value req_ip = Ok d ->
                hint = match d !! "requested_ip_address" with
                       | Some v => v
                       | None => PyNone
                       end))
    /\ (forall name,
          offer_hostname packet = Ok name ->
          (forall req_ip, by_code 50 (options packet) = Some req_ip ->
             exists d, value req_ip = Ok d) ->
          exists hint rest,
            evs = StoreFindOrRegister (chaddr packet) hint name :: rest
            /\ Forall (fun e => is_store_access e = false) rest
            /\ DHCPServer.hosts (snd (receive self env packet s))
               = fst (find_or_register (DHCPServer.hosts s) env (chaddr packet)
                        hint name)).
Proof.
  intros Hopen Hop Hty.
  rewrite (receive_open_discover self env packet s Hopen Hop Hty). unfold bind.
  destruct (offer_req_ip packet) as [hint|e] eqn:Hhint.
  2:{ destruct (offer_req_ip_raise packet e Hhint) as (o & Ho & Hvo).
      exists []. rewrite (send_offer_undecoded self env packet s e) by now left.
      cbn [snd]. rewrite app_nil_r. split; [reflexivity|].
      split; [intros m h n []|].
      intros name _ H50. destruct (H50 o Ho) as [d Hd]. congruence. }
  destruct (offer_hostname packet) as [name0|e] eqn:Hname.
  2:{ exists []. rewrite (send_offer_undecoded self env packet s e) by eauto.
      cbn [snd]. rewrite app_nil_r. split; [reflexivity|].
      split; [intros m h n []|]. intros name [=]. }
  destruct (offer_req_ip_hint packet hint Hhint) as [Hnone50 Hsome50].
  rewrite (send_offer_eq self env packet s hint name0 Hhint Hname).
  destruct (find_or_register _ _ _ _ _) as [db a] eqn:Ef.
  assert (forall rest (st : DHCPServer.t DB),
            Forall (fun e => is_store_access e = false) rest ->
            DHCPServer.effects st
            = (DHCPServer.effects s
               ++ StoreFindOrRegister (chaddr packet) hint name0 :: rest)%list ->
            DHCPServer.hosts st = db ->
            exists evs,
              DHCPServer.effects st = (DHCPServer.effects s ++ evs)%list
              /\ (forall m hint name,
                    In (StoreFindOrRegister m hint name) evs ->
                    m = chaddr packet
                    /\ (by_code 50 (options packet) = None -> hint = PyIP (ciaddr packet))
                    /\ (forall req_ip d,
                          by_code 50 (options packet) = Some req_ip ->
                          value req_ip = Ok d ->
                          hint = match d !! "requested_ip_address" with
                                 | Some v => v
                                 | None => PyNone
                                 end))
              /\ (forall name,
                    Ok name0 = Ok name ->
                    (forall req_ip, by_code 50 (options packet) = Some req_ip ->
                       exists d, value req_ip = Ok d) ->
                    exists hint rest,
                      evs = StoreFindOrRegister (chaddr packet) hint name :: rest
                      /\ Forall (fun e => is_store_access e = false) rest
                      /\ DHCPServer.hosts st
                         = fst (find_or_register (DHCPServer.hosts s) env (chaddr packet)
                                  hint name))) as Hleaf.
  { intros rest st Hrest E Hhosts.
    exists (StoreFindOrRegister (chaddr packet) hint name0 :: rest).
    split; [exact E|]. split.
    - intros m h n [Hhead|Hin].
      + injection Hhead as <- <- <-. auto.
      + exfalso. rewrite Forall_forall in Hrest. apply list_elem_of_In in Hin.
        specialize (Hrest _ Hin). discriminate.
    - intros name [= <-] _. exists hint, rest. rewrite Ef. auto. }
  destruct (a =? 0); [apply (Hleaf []); [constructor|reflexivity|reflexivity]|].
  destruct (valid_mac (chaddr packet));
    [|apply (Hleaf []); [constructor|reflexivity|reflexivity]].
  destruct (ipaddress.IPv4Address a);
    [|apply (Hleaf []); [constructor|reflexivity|reflexivity]].
  apply (Hleaf (broadcast_events env (DHCPServer.conf s)
                  (offer_packet self env packet s a)));
    [apply broadcast_events_no_store
    |destruct (broadcast_result env); reflexivity
    |destruct (broadcast_result env); reflexivity].
Qed.

Lemma set_sessions_same s : DHCPServer.set_sessions (DHCPServer.sessions s) s = s.
Proof. now destruct s. Qed.

Lemma sessions_getitem_eq env tx s :
  sessions_getitem env tx s
  = (Ok (session_for s env tx),
     DHCPServer.set_sessions (<[tx := session_for s env tx]> (DHCPServer.sessions s)) s).
Proof.
  unfold sessions_getitem, session_for.
  destruct (DHCPServer.sessions s !! tx) as [session|] eqn:E; [|reflexivity].
  now rewrite (insert_id _ _ _ E), set_sessions_same.
Qed.

Lemma handle_decoded env packet ty s :
  message_type packet = Some ty ->
  handle env (Decoded packet) s
  = match receive (session_for s env (xid packet)) env packet (routed env packet s) with
    | (Ok _, s') => (Ok tt, s')
    | (Raise e, s') => (Raise e, s')
    end.
Proof.
  intros Hty. destruct (message_type_inv packet ty Hty) as (m & d & Hm & Hv & Hd).
  unfold handle. rewrite Hm, Hv, Hd. unfold bind, log.
  rewrite sessions_getitem_eq. unfold routed.
  change (session_for (DHCPServer.emit [Log INFO] s) env (xid packet))
    with (session_for s env (xid packet)).
  change (DHCPServer.sessions (DHCPServer.emit [Log INFO] s)) with (DHCPServer.sessions s).
  now destruct (receive _ _ _ _) as [[r|e] s'].
Qed.

(** C6: a Discover for which the store reports exhaustion (returns 0) is
    dropped by an open session: [receive] returns normally and the state
    changes only by the store call; no packet is broadcast.  In the loop
    of [_worker] the datagrams that follow are handled from that state,
    and the server stays open.  ([hint] and [name] are what the options
    50 and 12 of the packet give: the store is called with them.) *)
Theorem exhausted_discover_is_dropped env packet s db' hint name :
  op packet = "BOOTREQUEST" ->
  announces packet "DHCPDISCOVER" ->
  offer_req_ip packet = Ok hint ->
  offer_hostname packet = Ok name ->
  find_or_register (DHCPServer.hosts s) env (chaddr packet) hint name = (db', 0) ->
  (forall self, Session.closed self = false ->
     receive self env packet s = (Ok PyNone, dropped_discover packet hint name db' s))
  /\ List.filter is_broadcast (DHCPServer.effects (dropped_discover packet hint name db' s))
     = List.filter is_broadcast (DHCPServer.effects s)
  /\ (Session.closed (session_for s env (xid packet)) = false ->
      forall more,
        handle_all env (Decoded packet :: more) s
        = handle_all env more (dropped_discover packet hint name db' (routed env packet s))
        /\ DHCPServer.closed (dropped_discover packet hint name db' (routed env packet s))
           = DHCPServer.closed s)
  /\ (Session.closed (session_for s env (xid packet)) = false ->
      DHCPServer.closed s = false ->
      forall later,
        serve (Turn env (Readable [Decoded packet]) :: later) s
        = serve later
            (snd (sweep env (dropped_discover packet hint name db' (routed env packet s))))).
Proof.
  intros Hop Hty Hhint Hname Hfull.
  assert (forall self s0, DHCPServer.hosts s0 = DHCPServer.hosts s ->
            Session.closed self = false ->
            receive self env packet s0
            = (Ok PyNone, dropped_discover packet hint name db' s0)) as Hdrop.
  { intros self s0 Hhosts Hopen.
    rewrite (receive_open_discover self env packet s0 Hopen Hop Hty).
    unfold bind. rewrite (send_offer_eq self env packet s0 hint name Hhint Hname).
    rewrite Hhosts, Hfull. reflexivity. }
  assert (Session.closed (session_for s env (xid packet)) = false ->
          handle env (Decoded packet) s
          = (Ok tt, dropped_discover packet hint name db' (routed env packet s))) as Hhandle.
  { intros Hopen. rewrite (handle_decoded env packet _ s Hty).
    now rewrite (Hdrop _ (routed env packet s) eq_refl Hopen). }
  split; [intros self; now apply Hdrop|]. split; [|split].
  - unfold dropped_discover. cbn [DHCPServer.effects DHCPServer.emit DHCPServer.set_hosts].
    rewrite List.filter_app. cbn. now rewrite app_nil_r.
  - intros Hopen more. split; [|reflexivity].
    cbn [handle_all]. unfold bind at 1. now rewrite (Hhandle Hopen).
  - intros Hopen Hrun later. cbn [serve]. rewrite Hrun.
    unfold _worker. cbn [handle_all]. unfold bind. rewrite (Hhandle Hopen).
    reflexivity.
Qed.

End SessionClaims.
(** ** The sweep of the transaction table *)

Lemma Qltb_lt a b : Qltb a b = true <-> (a < b)%Q.
Proof. unfold Qltb, Qlt. apply Z.ltb_lt. Qed.

Lemma is_done_spec session env :
  Session.is_done session env = true
  <-> Session.closed session = true \/ (Session.timeout session < now env)%Q.
Proof.
  unfold Session.is_done. rewrite orb_true_iff, Qltb_lt. reflexivity.
Qed.

Section SweepFacts.
Context {DB : Type} `{HostStore DB}.
Variable env : Env.
Implicit Types (tbl acc : gmap Z Session.t) (l : list (Z * Session.t)).

Lemma sweep_step_other acc k entry :
  fst entry <> k -> sweep_step env acc entry !! k = acc !! k.
Proof.
  intros Hne. unfold sweep_step. destruct (Session.is_done (snd entry) env); [|reflexivity].
  rewrite lookup_delete_ne by assumption. now rewrite lookup_alter_ne.
Qed.

Lemma sweep_fold_absent l : forall acc k,
  acc !! k = None -> foldl (sweep_step env) acc l !! k = None.
Proof.
  induction l as [|entry l IH]; intros acc k Hk; [assumption|].
  cbn [foldl]. apply IH.
  destruct (decide (fst entry = k)) as [E|Hne].
  - unfold sweep_step. destruct (Session.is_done (snd entry) env); [|assumption].
    rewrite E. apply lookup_delete_eq.
  - now rewrite sweep_step_other.
Qed.

Lemma sweep_fold_done l : forall acc k session,
  (k, session) ∈ l -> Session.is_done session env = true ->
  foldl (sweep_step env) acc l !! k = None.
Proof.
  induction l as [|entry l IH]; intros acc k session Hin Hdone.
  - inversion Hin.
  - cbn [foldl]. apply elem_of_cons in Hin as [<-|Hin].
    + apply sweep_fold_absent. unfold sweep_step. cbn [fst snd].
      rewrite Hdone. apply lookup_delete_eq.
    + now apply (IH _ _ session).
Qed.

Lemma sweep_fold_kept l : forall acc k,
  (forall session, (k, session) ∈ l -> Session.is_done session env = false) ->
  foldl (sweep_step env) acc l !! k = acc !! k.
Proof.
  induction l as [|entry l IH]; intros acc k Hkeep; [reflexivity|].
  cbn [foldl]. rewrite IH.
  - destruct (decide (fst entry = k)) as [E|Hne]; [|now apply sweep_step_other].
    unfold sweep_step. rewrite (Hkeep (snd entry)); [reflexivity|].
    destruct entry as [k' session]. cbn in E. subst k'. apply elem_of_cons. now left.
  - intros session Hin. apply Hkeep. apply elem_of_cons. now right.
Qed.

(** The sweep keeps exactly the entries that are not done. *)
Lemma sweep_table_lookup tbl k :
  sweep_table env tbl !! k
  = match tbl !! k with
    | Some session => if Session.is_done session env then None else Some session
    | None => None
    end.
Proof.
  unfold sweep_table. destruct (tbl !! k) as [session|] eqn:E.
  - destruct (Session.is_done session env) eqn:Hdone.
    + apply (sweep_fold_done _ _ _ session); [|assumption].
      now apply elem_of_map_to_list.
    + rewrite sweep_fold_kept; [assumption|].
      intros session' Hin. apply elem_of_map_to_list in Hin. congruence.
  - now apply sweep_fold_absent.
Qed.


End SweepFacts.

(** ** The lease store *)

Section StoreFacts.
Import HostDatabase.
Implicit Types (db : HostDatabase.t) (m : string) (h : Host) (a : Z).

Lemma assigned_spec db a :
  assigned db a = true <-> exists m h, leases db !! m = Some h /\ ip h = a.
Proof. unfold assigned. rewrite bool_decide_eq_true. reflexivity. Qed.

Lemma assigned_ext db1 db2 a :
  ((exists m h, leases db1 !! m = Some h /\ ip h = a)
   <-> (exists m h, leases db2 !! m = Some h /\ ip h = a)) ->
  assigned db1 a = assigned db2 a.
Proof.
  intros Hiff. destruct (assigned db2 a) eqn:E2.
  - apply assigned_spec, Hiff, assigned_spec, E2.
  - destruct (assigned db1 a) eqn:E1; [|reflexivity].
    apply assigned_spec, Hiff, assigned_spec in E1. congruence.
Qed.

Lemma scan_spec db a :
  scan db = Some a -> in_range db a = true /\ assigned db a = false.
Proof.
  unfold scan. intros Hf. apply List.find_some in Hf as [Hin Hfree].
  apply list_elem_of_In, elem_of_seqZ in Hin.
  split; [|now apply negb_true_iff].
  unfold in_range. apply andb_true_iff. split; apply Z.leb_le; lia.
Qed.

Lemma pick_spec db hint a :
  pick db hint = Some a -> in_range db a = true /\ assigned db a = false.
Proof.
  unfold pick. destruct hint as [| | | |x]; try apply scan_spec.
  destruct (in_range db x && negb (assigned db x)) eqn:E; [|apply scan_spec].
  intros [= <-]. apply andb_true_iff in E as [Hr Hf].
  split; [assumption|now apply negb_true_iff].
Qed.

(** The three outcomes of a call. *)
Lemma find_or_allocate_cases db env m hint name :
  (exists h, leases db !! m = Some h /\
     find_or_allocate db env m hint name
     = (record_lease db {| mac := m; ip := ip h; hostname := name;
                           allocated_at := now env |}, ip h))
  \/ (exists a, leases db !! m = None /\ pick db hint = Some a /\
        find_or_allocate db env m hint name
        = (record_lease db {| mac := m; ip := a; hostname := name;
                              allocated_at := now env |}, a))
  \/ (leases db !! m = None /\ pick db hint = None /\
      find_or_allocate db env m hint name = (db, 0)).
Proof.
  unfold find_or_allocate. destruct (leases db !! m) as [h|] eqn:E.
  - left. now exists h.
  - destruct (pick db hint) as [a|] eqn:P.
    + right; left. now exists a.
    + right; right. auto.
Qed.

(** A successful call leaves a lease for the MAC address with the address
    it returned. *)
Lemma find_or_allocate_holds db env m hint name db1 a :
  find_or_allocate db env m hint name = (db1, a) -> a <> 0 ->
  exists h, leases db1 !! m = Some h /\ ip h = a.
Proof.
  intros Hcall Hok.
  destruct (find_or_allocate_cases db env m hint name)
    as [(h & _ & E)|[(x & _ & _ & E)|(_ & _ & E)]];
    rewrite E in Hcall; injection Hcall as <- <-.
  - eexists. split; [apply lookup_insert_eq|reflexivity].
  - eexists. split; [apply lookup_insert_eq|reflexivity].
  - contradiction.
Qed.

(** A lease, once held, keeps its address through any later call. *)
Lemma do_call_keeps db c m h :
  leases db !! m = Some h ->
  exists h', leases (do_call db c) !! m = Some h' /\ ip h' = ip h.
Proof.
  intros Hm. unfold do_call.
  destruct (find_or_allocate_cases db (call_env c) (call_mac c) (call_hint c) (call_hostname c))
    as [(h0 & E0 & E)|[(x & E0 & _ & E)|(_ & _ & E)]]; rewrite E; cbn [fst record_lease leases mac].
  - destruct (decide (call_mac c = m)) as [Heq|Hne].
    + rewrite Heq in *. rewrite lookup_insert_eq.
      eexists; split; [reflexivity|]. cbn. congruence.
    + rewrite lookup_insert_ne by assumption. eauto.
  - destruct (decide (call_mac c = m)) as [Heq|Hne]; [congruence|].
    rewrite lookup_insert_ne by assumption. eauto.
  - eauto.
Qed.

Lemma run_keeps calls : forall db m h,
  leases db !! m = Some h ->
  exists h', leases (run db calls) !! m = Some h' /\ ip h' = ip h.
Proof.
  induction calls as [|c calls IH]; intros db m h Hm; [eauto|].
  unfold run. cbn [foldl]. fold (run (do_call db c) calls).
  destruct (do_call_keeps db c m h Hm) as (h1 & H1 & E1).
  destruct (IH _ _ _ H1) as (h2 & H2 & E2).
  exists h2. split; [assumption|congruence].
Qed.

(** C4: once a call for a MAC address has succeeded, every later call for
    that MAC address, whatever its hint and hostname and whatever calls
    were made in between, returns the same address, and it leaves the set
    of assigned addresses as it found it: no further address is taken. *)
Theorem find_or_allocate_idempotent db env m hint name db1 a :
  find_or_allocate db env m hint name = (db1, a) -> a <> 0 ->
  forall between env' hint' name',
    snd (find_or_allocate (run db1 between) env' m hint' name') = a
    /\ (forall x,
          assigned (fst (find_or_allocate (run db1 between) env' m hint' name')) x
          = assigned (run db1 between) x).
Proof.
  intros Hcall Hok between env' hint' name'.
  destruct (find_or_allocate_holds _ _ _ _ _ _ _ Hcall Hok) as (h & Hh & Hip).
  destruct (run_keeps between db1 m h Hh) as (h' & Hh' & Hip').
  unfold find_or_allocate. rewrite Hh'. cbn [fst snd]. split; [congruence|].
  intros x. apply assigned_ext. cbn [record_lease leases mac]. split.
  - intros (m' & h0 & Hl & Hx).
    destruct (decide (m = m')) as [<-|Hne].
    + rewrite lookup_insert_eq in Hl. injection Hl as <-. cbn in Hx. eauto.
    + rewrite lookup_insert_ne in Hl by assumption. eauto.
  - intros (m' & h0 & Hl & Hx).
    destruct (decide (m = m')) as [<-|Hne].
    + exists m. eexists. split; [apply lookup_insert_eq|]. cbn. congruence.
    + exists m', h0. split; [|assumption]. now rewrite lookup_insert_ne.
Qed.

Lemma do_call_injective db c : injective db -> injective (do_call db c).
Proof.
  intros Hinj. unfold do_call.
  destruct (find_or_allocate_cases db (call_env c) (call_mac c) (call_hint c) (call_hostname c))
    as [(h0 & E0 & E)|[(x & E0 & P & E)|(_ & _ & E)]]; rewrite E; cbn [fst];
    [| |assumption].
  - (* the lease of [call_mac c] is replaced by one with the same address *)
    intros m1 m2 h1 h2. cbn [record_lease leases mac]. intros H1 H2 Hip.
    destruct (decide (call_mac c = m1)) as [E1|N1], (decide (call_mac c = m2)) as [E2|N2].
    + congruence.
    + subst m1. rewrite lookup_insert_eq in H1. injection H1 as <-.
      rewrite lookup_insert_ne in H2 by assumption.
      apply (Hinj _ _ h0 h2 E0 H2). exact Hip.
    + subst m2. rewrite lookup_insert_eq in H2. injection H2 as <-.
      rewrite lookup_insert_ne in H1 by assumption.
      apply (Hinj _ _ h1 h0 H1 E0). exact Hip.
    + rewrite lookup_insert_ne in H1, H2 by assumption. eauto.
  - (* a new lease takes an address nobody holds *)
    apply pick_spec in P as [_ Hfree].
    assert (forall m h, leases db !! m = Some h -> ip h <> x) as Hfresh.
    { intros m h Hl Hx. assert (assigned db x = true) as Ha; [|congruence].
      apply assigned_spec. eauto. }
    intros m1 m2 h1 h2. cbn [record_lease leases mac]. intros H1 H2 Hip.
    destruct (decide (call_mac c = m1)) as [E1|N1], (decide (call_mac c = m2)) as [E2|N2].
    + congruence.
    + subst m1. rewrite lookup_insert_eq in H1. injection H1 as <-.
      rewrite lookup_insert_ne in H2 by assumption.
      exfalso. apply (Hfresh _ _ H2). now rewrite <- Hip.
    + subst m2. rewrite lookup_insert_eq in H2. injection H2 as <-.
      rewrite lookup_insert_ne in H1 by assumption.
      exfalso. apply (Hfresh _ _ H1). now rewrite Hip.
    + rewrite lookup_insert_ne in H1, H2 by assumption. eauto.
Qed.

Lemma run_injective calls : forall db, injective db -> injective (run db calls).
Proof.
  induction calls as [|c calls IH]; intros db Hinj; [assumption|].
  unfold run. cbn [foldl]. apply IH. now apply do_call_injective.
Qed.

(** C5: after any sequence of calls on a store that starts without leases,
    no two distinct MAC addresses hold the same address: the map from MAC
    address to address is injective over the held leases. *)
Theorem leases_are_injective r calls m1 m2 h1 h2 :
  leases (run (init r) calls) !! m1 = Some h1 ->
  leases (run (init r) calls) !! m2 = Some h2 ->
  m1 <> m2 -> ip h1 <> ip h2.
Proof.
  intros H1 H2 Hne Hip. apply Hne.
  refine (run_injective calls (init r) _ m1 m2 h1 h2 H1 H2 Hip).
  intros x1 x2 y1 y2 Hx. cbn in Hx. rewrite lookup_empty in Hx. discriminate.
Qed.

(** Containment: every lease the store records lies in the inclusive
    range it was given. *)
Lemma leases_within_range r calls m h :
  leases (run (init r) calls) !! m = Some h -> fst r <= ip h <= snd r.
Proof.
  assert (forall calls db,
            range db = r ->
            (forall m h, leases db !! m = Some h -> fst r <= ip h <= snd r) ->
            range (run db calls) = r /\
            forall m h, leases (run db calls) !! m = Some h -> fst r <= ip h <= snd r) as Hgen.
  { clear. induction calls as [|c calls IH]; intros db Hr Hall; [auto|].
    unfold run. cbn [foldl]. apply IH; unfold do_call;
    destruct (find_or_allocate_cases db (call_env c) (call_mac c) (call_hint c) (call_hostname c))
      as [(h0 & E0 & E)|[(x & E0 & P & E)|(_ & _ & E)]]; rewrite E; cbn [fst]; auto.
    - intros m h. cbn [record_lease leases mac].
      destruct (decide (call_mac c = m)) as [Heq|Hne].
      + rewrite Heq in *. rewrite lookup_insert_eq. intros [= <-]. cbn. eauto.
      + rewrite lookup_insert_ne by assumption. eauto.
    - apply pick_spec in P as [Hin _]. unfold in_range in Hin. rewrite Hr in Hin.
      apply andb_true_iff in Hin as [Hlo Hhi]. apply Z.leb_le in Hlo, Hhi.
      intros m h. cbn [record_lease leases mac].
      destruct (decide (call_mac c = m)) as [Heq|Hne].
      + rewrite Heq. rewrite lookup_insert_eq. intros [= <-]. cbn. lia.
      + rewrite lookup_insert_ne by assumption. eauto. }
  apply (Hgen calls (init r) eq_refl).
  intros m' h' Hl. cbn in Hl. rewrite lookup_empty in Hl. discriminate.
Qed.

End StoreFacts.

(** ** The scenarios, evaluated *)

Section Scenarios.
Import Scenario.



(** Scenario C: a Request for a MAC address without a lease is answered
    by a Nak. *)
Example request_without_lease :
  List.filter is_broadcast
    (DHCPServer.effects
       (snd (receive open_session (at_time 5) (client "DHCPREQUEST" mac1 7 [])
               (server store_A))))
  = (let p := nak_packet open_session (at_time 5) (client "DHCPREQUEST" mac1 7 [])
                (server store_A) in
     [Broadcast p; SendTo p 4294967295; SendTo p 170852607]).
Proof. vm_compute; reflexivity. Qed.

(** Scenario B: after the Discover of [mac1], its Request is acknowledged
    with the address offered, and a Request that names another address is
    refused. *)
Example request_after_discover :
  let s := DHCPServer.set_hosts (HostDatabase.run store_A [call mac1]) (server store_A) in
  List.filter is_broadcast
    (DHCPServer.effects
       (snd (receive open_session (at_time 5) (client "DHCPREQUEST" mac1 7 []) s)))
  = (let p := ack_packet open_session (at_time 5) (client "DHCPREQUEST" mac1 7 []) s
                {| mac := mac1; ip := ip1; hostname := PyNone; allocated_at := 0 |} in
     [Broadcast p; SendTo p 4294967295; SendTo p 170852607])
  /\
  List.filter is_broadcast
    (DHCPServer.effects
       (snd (receive open_session (at_time 5)
               (client "DHCPREQUEST" mac1 7 [requested_ip ip2]) s)))
  = (let p := nak_packet open_session (at_time 5)
                (client "DHCPREQUEST" mac1 7 [requested_ip ip2]) s in
     [Broadcast p; SendTo p 4294967295; SendTo p 170852607]).
Proof. split; vm_compute; reflexivity. Qed.

(** Scenario A on the store: the first two clients get 10.47.0.1 and
    10.47.0.2, the third gets nothing. *)
Example scenario_A_allocations :
  snd (HostDatabase.find_or_allocate store_A (at_time 0) mac1 (PyIP 0) PyNone) = ip1 /\
  snd (HostDatabase.find_or_allocate (HostDatabase.run store_A [call mac1])
         (at_time 0) mac2 (PyIP 0) PyNone) = ip2 /\
  HostDatabase.find_or_allocate store_full (at_time 0) mac3 (PyIP 0) PyNone
  = (store_full, 0).
Proof. repeat split; vm_compute; reflexivity. Qed.

(** Without option 53 [receive] fails on [message.value]: the claims on
    message types are about packets that carry the option. *)
Example receive_without_message_type :
  fst (receive open_session (at_time 5)
         {| op := "BOOTREQUEST"; xid := 7; secs := 0; ciaddr := 0; yiaddr := 0;
            siaddr := 0; giaddr := 0; chaddr := mac1; options := [] |}
         (server store_A))
  = Raise AttributeError.
Proof. reflexivity. Qed.

(** Two Discovers of [mac1] in a row: both Offers carry 10.47.0.1. *)
Example discover_twice_same_offer :
  let packet := client "DHCPDISCOVER" mac1 7 [] in
  let s1 := snd (receive open_session (at_time 1) packet (server store_A)) in
  let s2 := snd (receive open_session (at_time 2) packet s1) in
  List.map (fun e => match e with Broadcast p => yiaddr p | _ => 0 end)
    (List.filter (fun e => match e with Broadcast _ => true | _ => false end)
       (DHCPServer.effects s2))
  = [ip1; ip1].
Proof. vm_compute; reflexivity. Qed.

(** C4, witness: [mac1] keeps 10.47.0.1 after [mac2] was served, whatever
    it asks for. *)
Lemma find_or_allocate_idempotent_witness :
  snd (HostDatabase.find_or_allocate
         (HostDatabase.run (HostDatabase.run store_A [call mac1]) [call mac2])
         (at_time 9) mac1 (PyIP ip2) (PyStr "host")) = ip1.
Proof.
  refine (proj1 (find_or_allocate_idempotent store_A (at_time 0) mac1 (PyIP 0) PyNone
                   (HostDatabase.run store_A [call mac1]) ip1 _ _
                   [call mac2] (at_time 9) (PyIP ip2) (PyStr "host"))).
  - vm_compute; reflexivity.
  - discriminate.
Defined.

(** C5, witness: in Scenario A the two leases carry different addresses. *)
Lemma leases_are_injective_witness :
  ip {| mac := mac1; ip := ip1; hostname := PyNone; allocated_at := 0 |}
  <> ip {| mac := mac2; ip := ip2; hostname := PyNone; allocated_at := 0 |}.
Proof.
  apply (leases_are_injective (ip1, ip2) [call mac1; call mac2] mac1 mac2).
  - vm_compute; reflexivity.
  - vm_compute; reflexivity.
  - discriminate.
Defined.

(** C6, witness (Scenario A, third client): the Discover is dropped. *)
Lemma exhausted_discover_is_dropped_witness :
  receive open_session (at_time 5) (client "DHCPDISCOVER" mac3 9 []) (server store_full)
  = (Ok PyNone,
     dropped_discover (client "DHCPDISCOVER" mac3 9 []) (PyIP 0) PyNone store_full
       (server store_full)).
Proof.
  refine (proj1 (exhausted_discover_is_dropped (at_time 5)
                   (client "DHCPDISCOVER" mac3 9 []) (server store_full) store_full
                   (PyIP 0) PyNone _ _ _ _ _) open_session _).
  - reflexivity.
  - vm_compute; reflexivity.
  - reflexivity.
  - reflexivity.
  - vm_compute; reflexivity.
  - reflexivity.
Defined.

(** C7, witness: a Release is logged and discarded. *)
Lemma receive_other_type_is_discarded_witness :
  exists r,
    receive open_session (at_time 5) (client "DHCPRELEASE" mac1 7 []) (server store_A)
    = (Ok r, DHCPServer.emit [Log WARNING] (server store_A)).
Proof.
  destruct (receive_other_type_is_discarded open_session (at_time 5)
              (client "DHCPRELEASE" mac1 7 []) (server store_A)) as (r & _ & Hlog).
  - discriminate.
  - intros m e Hm Hv. vm_compute in Hm. injection Hm as <-. discriminate Hv.
  - intros ty Hty. vm_compute in Hty. injection Hty as <-. split; discriminate.
  - exists r. apply Hlog; reflexivity.
Defined.

(** A message type that is no member of [DHCPMessages], and a value of
    option 53 for which the library raises [KeyError], are discarded in
    the same way. *)
Example receive_unknown_type :
  receive open_session (at_time 5) (client "DHCPFORCERENEW" mac1 7 []) (server store_A)
  = (Ok (PyBool false), DHCPServer.emit [Log WARNING] (server store_A))
  /\ receive open_session (at_time 5)
       {| op := "BOOTREQUEST"; xid := 7; secs := 0; ciaddr := 0; yiaddr := 0;
          siaddr := 0; giaddr := 0; chaddr := mac1;
          options := [ {| code := 53; value := Raise KeyError |} ] |}
       (server store_A)
     = (Ok (PyBool false), DHCPServer.emit [Log WARNING] (server store_A)).
Proof. split; vm_compute; reflexivity. Qed.



(** C9, witness: a closed session leaves a Discover unanswered. *)
Lemma receive_closed_is_noop_witness :
  receive closed_session (at_time 5) (client "DHCPDISCOVER" mac1 7 []) (server store_A)
  = (Ok PyNone, server store_A).
Proof. apply (receive_closed_is_noop closed_session). reflexivity. Defined.

(** C10, witness: a Discover whose option 50 names 10.47.0.2 hands the
    store that address as the hint. *)
Lemma discover_hint_is_ciaddr_or_option_50_witness :
  exists rest,
    DHCPServer.effects
      (snd (receive open_session (at_time 5)
              (client "DHCPDISCOVER" mac1 7 [requested_ip ip2]) (server store_A)))
    = StoreFindOrRegister mac1 (PyIP ip2) PyNone :: rest.
Proof.
  destruct (discover_hint_is_ciaddr_or_option_50 open_session (at_time 5)
              (client "DHCPDISCOVER" mac1 7 [requested_ip ip2]) (server store_A)
              eq_refl eq_refl eq_refl) as (evs & E & Hcalls & Hcalled).
  destruct (Hcalled PyNone eq_refl) as (hint & rest & Hevs & _).
  - intros req_ip Hq. vm_compute in Hq. injection Hq as <-. eexists; reflexivity.
  - exists rest. rewrite E, Hevs.
    destruct (Hcalls (chaddr (client "DHCPDISCOVER" mac1 7 [requested_ip ip2])) hint PyNone)
      as (_ & _ & Hsome).
    + rewrite Hevs. now left.
    + rewrite (Hsome (requested_ip ip2) {[ "requested_ip_address" := PyIP ip2 ]}
                 eq_refl eq_refl).
      reflexivity.
Defined.

(** A Discover without option 50 and with [ciaddr] 0 hands the store the
    hint 0.0.0.0; one whose option 50 does not decode raises before the
    store is called. *)
Example discover_hint_examples :
  (exists rest,
      DHCPServer.effects
        (snd (receive open_session (at_time 5) (client "DHCPDISCOVER" mac1 7 [])
                (server store_A)))
      = StoreFindOrRegister mac1 (PyIP 0) PyNone :: rest)
  /\ receive open_session (at_time 5)
       (client "DHCPDISCOVER" mac1 7 [broken_requested_ip]) (server store_A)
     = (Raise IndexError, server store_A).
Proof. split; [eexists|]; vm_compute; reflexivity. Qed.

End Scenarios.
(** * Further properties of the code *)

(** ** Networks as intervals *)

Lemma ALL_ONES_ones : ipaddress.ALL_ONES = Z.ones 32.
Proof. reflexivity. Qed.

Lemma shiftr_ALL_ONES p :
  0 <= p <= 32 -> Z.shiftr ipaddress.ALL_ONES p = Z.ones (32 - p).
Proof.
  intros Hp. rewrite ALL_ONES_ones. apply Z.bits_inj'. intros i Hi.
  rewrite Z.shiftr_spec by assumption.
  rewrite !Z.testbit_ones_nonneg by lia.
  destruct (Z.ltb_spec (i + p) 32), (Z.ltb_spec i (32 - p)); (reflexivity || lia).
Qed.

Lemma hostmask_ones net :
  0 <= ipaddress.prefixlen net <= 32 ->
  hostmask net = Z.ones (32 - ipaddress.prefixlen net).
Proof.
  intros Hp. unfold hostmask, ipaddress.netmask.
  rewrite (shiftr_ALL_ONES _ Hp).
  rewrite (Z.lxor_comm ipaddress.ALL_ONES), Z.lxor_assoc, Z.lxor_nilpotent.
  apply Z.lxor_0_r.
Qed.

Lemma ones_value k : 0 <= k -> Z.ones k = 2 ^ k - 1.
Proof. intros Hk. rewrite Z.ones_equiv. lia. Qed.

(** Masking a 32-bit value with the netmask clears its low bits. *)
Lemma land_netmask net x :
  0 <= ipaddress.prefixlen net <= 32 -> 0 <= x <= ipaddress.ALL_ONES ->
  Z.land x (ipaddress.netmask net)
  = 2 ^ (32 - ipaddress.prefixlen net) * (x / 2 ^ (32 - ipaddress.prefixlen net)).
Proof.
  intros Hp Hx. unfold ipaddress.netmask. rewrite (shiftr_ALL_ONES _ Hp).
  set (k := 32 - ipaddress.prefixlen net). assert (0 <= k <= 32) as Hk by (unfold k; lia).
  transitivity (Z.ldiff x (Z.ones k)).
  - assert (x = Z.land x (Z.ones 32)) as Hx32.
    { rewrite Z.land_ones by lia. symmetry. apply Z.mod_small.
      unfold ipaddress.ALL_ONES in Hx. lia. }
    apply Z.bits_inj'. intros i Hi.
    rewrite Z.land_spec, Z.lxor_spec, Z.ldiff_spec, ALL_ONES_ones.
    rewrite !Z.testbit_ones_nonneg by lia.
    rewrite Hx32, Z.land_spec, Z.testbit_ones_nonneg by lia.
    destruct (Z.testbit x i), (Z.ltb_spec i 32), (Z.ltb_spec i k); (reflexivity || lia).
  - rewrite Z.ldiff_ones_r by lia.
    rewrite Z.shiftl_mul_pow2, Z.shiftr_div_pow2 by lia. lia.
Qed.

Lemma wf_network_aligned net :
  wf_network net ->
  exists q, ipaddress.network_address net = 2 ^ (32 - ipaddress.prefixlen net) * q.
Proof.
  intros (Hp & Hna & Hal). rewrite (hostmask_ones _ Hp) in Hal.
  rewrite Z.land_ones in Hal by lia.
  exists (ipaddress.network_address net / 2 ^ (32 - ipaddress.prefixlen net)).
  apply Z.div_exact; [|assumption].
  apply Z.pow_nonzero; lia.
Qed.

Lemma broadcast_address_value net :
  wf_network net ->
  ipaddress.broadcast_address net
  = ipaddress.network_address net + 2 ^ (32 - ipaddress.prefixlen net) - 1.
Proof.
  intros Hwf. pose proof Hwf as (Hp & Hna & Hal).
  unfold ipaddress.broadcast_address. fold (hostmask net).
  pose proof (Z.add_lor_land (ipaddress.network_address net) (hostmask net)) as Hadd.
  rewrite Hal in Hadd. rewrite (hostmask_ones _ Hp) in *.
  rewrite ones_value in Hadd |- * by lia. lia.
Qed.

Lemma pow2_pos k : 0 <= k -> 0 < 2 ^ k.
Proof. intros Hk. apply Z.pow_pos_nonneg; lia. Qed.

(** A network ends inside the 32-bit space. *)
Lemma network_end_bound net :
  wf_network net ->
  ipaddress.network_address net + 2 ^ (32 - ipaddress.prefixlen net) <= 2 ^ 32.
Proof.
  intros Hwf. destruct (wf_network_aligned net Hwf) as [q Hq].
  destruct Hwf as (Hp & Hna & _). unfold ipaddress.ALL_ONES in Hna.
  set (k := 32 - ipaddress.prefixlen net) in *.
  assert (2 ^ 32 = 2 ^ k * 2 ^ ipaddress.prefixlen net) as Hsplit.
  { rewrite <- Z.pow_add_r by (unfold k; lia). f_equal. unfold k. lia. }
  pose proof (pow2_pos k ltac:(unfold k; lia)) as HM.
  pose proof (pow2_pos (ipaddress.prefixlen net) ltac:(lia)) as HP.
  rewrite Hq, Hsplit.
  assert (q < 2 ^ ipaddress.prefixlen net) by nia.
  nia.
Qed.

(** Membership in a network is membership in the interval from its
    network address to its broadcast address. *)
Lemma contains4_interval net x :
  wf_network net -> 0 <= x <= ipaddress.ALL_ONES ->
  ipaddress.contains4 net x = true
  <-> ipaddress.network_address net <= x <= ipaddress.broadcast_address net.
Proof.
  intros Hwf Hx. rewrite (broadcast_address_value net Hwf).
  destruct (wf_network_aligned net Hwf) as [q Hq].
  pose proof Hwf as (Hp & Hna & _).
  unfold ipaddress.contains4. rewrite (land_netmask net x Hp Hx), Z.eqb_eq.
  set (M := 2 ^ (32 - ipaddress.prefixlen net)) in *.
  assert (0 < M) as HM by (apply pow2_pos; lia).
  pose proof (Z.div_mod x M ltac:(lia)) as Hdm.
  pose proof (Z.mod_pos_bound x M HM) as Hmod.
  rewrite Hq. split.
  - intros E. assert (x / M = q) by nia. nia.
  - intros [Hlo Hhi]. f_equal. symmetry.
    apply (Z.div_unique x M q (x - M * q)); lia.
Qed.

(** X1: on a well-formed network, [in_range] answers for an integer as
    follows: a 32-bit value is accepted exactly when it lies between the
    network address and the broadcast address, whatever the allocation
    range is; a larger value below 2^128 is an IPv6 address and is
    refused; any other integer raises [ValueError]. *)
Theorem in_range_is_the_network_interval cfg a :
  wf_network (DHCPServerConfiguration.network cfg) ->
  (0 <= a <= ipaddress.ALL_ONES ->
     DHCPServerConfiguration.in_range cfg a
     = Ok (bool_decide
             (ipaddress.network_address (DHCPServerConfiguration.network cfg) <= a
              <= ipaddress.broadcast_address (DHCPServerConfiguration.network cfg))))
  /\ (ipaddress.ALL_ONES < a <= 2 ^ 128 - 1 ->
        DHCPServerConfiguration.in_range cfg a = Ok false)
  /\ (a < 0 \/ 2 ^ 128 - 1 < a ->
        DHCPServerConfiguration.in_range cfg a = Raise ValueError).
Proof.
  intros Hwf. split; [|split].
  - intros Ha. rewrite (in_range_is_network_membership cfg a Ha). f_equal.
    pose proof (contains4_interval _ a Hwf Ha) as Hiff.
    destruct (ipaddress.contains4 _ a); case_bool_decide; intuition congruence.
  - intros Ha. unfold DHCPServerConfiguration.in_range, ipaddress.ip_address,
      ipaddress.IPv4Address.
    unfold ipaddress.ALL_ONES in *.
    destruct (Z.ltb_spec a 0); [lia|].
    destruct (Z.ltb_spec (2 ^ 32 - 1) a); [|lia].
    destruct (Z.ltb_spec (2 ^ 128 - 1) a); [lia|]. reflexivity.
  - intros Ha. unfold DHCPServerConfiguration.in_range, ipaddress.ip_address,
      ipaddress.IPv4Address.
    unfold ipaddress.ALL_ONES.
    destruct (Z.ltb_spec a 0); [reflexivity|].
    destruct (Z.ltb_spec (2 ^ 32 - 1) a); [|lia].
    destruct (Z.ltb_spec (2 ^ 128 - 1) a); [reflexivity|lia].
Qed.

(** X1, witness: in 10.47.0.0/24, 10.47.0.200 is accepted. *)
Lemma in_range_is_the_network_interval_witness :
  DHCPServerConfiguration.in_range ConfigExamples.ten_twenty 170852552 = Ok true.
Proof.
  refine (eq_trans (proj1 (in_range_is_the_network_interval ConfigExamples.ten_twenty
                             170852552 _) _) _).
  - repeat split; vm_compute; congruence.
  - vm_compute. split; discriminate.
  - vm_compute. reflexivity.
Defined.

(** ** [get_range] and [check] *)

Lemma get_range_bounds net :
  wf_network net -> ipaddress.prefixlen net <= 30 ->
  0 <= ipaddress.network_address net + 1 <= ipaddress.ALL_ONES
  /\ 0 <= ipaddress.broadcast_address net - 1 <= ipaddress.ALL_ONES
  /\ ipaddress.network_address net + 1 <= ipaddress.broadcast_address net - 1.
Proof.
  intros Hwf Hp30. pose proof Hwf as (Hp & Hna & _).
  pose proof (network_end_bound net Hwf) as Hend.
  pose proof (broadcast_address_value net Hwf) as Hbc.
  assert (4 <= 2 ^ (32 - ipaddress.prefixlen net)) as HM.
  { change 4 with (2 ^ 2). apply Z.pow_le_mono_r; lia. }
  unfold ipaddress.ALL_ONES in *. lia.
Qed.

Lemma get_range_value net :
  wf_network net -> ipaddress.prefixlen net <= 30 ->
  get_range net
  = Ok (ipaddress.network_address net + 1, ipaddress.broadcast_address net - 1).
Proof.
  intros Hwf Hp30. destruct (get_range_bounds net Hwf Hp30) as (H1 & H2 & _).
  unfold get_range. now rewrite (IPv4Address_ok _ H1), (IPv4Address_ok _ H2).
Qed.

(** X2: for a well-formed network of prefix length at most 30, [get_range]
    returns the address after the network address and the address before
    the broadcast address; the two are in order, both lie in the network,
    and they span all of it but its first and last address. *)
Theorem get_range_is_the_host_range net :
  wf_network net -> ipaddress.prefixlen net <= 30 ->
  get_range net
  = Ok (ipaddress.network_address net + 1, ipaddress.broadcast_address net - 1)
  /\ ipaddress.network_address net + 1 <= ipaddress.broadcast_address net - 1
  /\ ipaddress.contains4 net (ipaddress.network_address net + 1) = true
  /\ ipaddress.contains4 net (ipaddress.broadcast_address net - 1) = true
  /\ (ipaddress.broadcast_address net - 1) - (ipaddress.network_address net + 1) + 1
     = 2 ^ (32 - ipaddress.prefixlen net) - 2.
Proof.
  intros Hwf Hp30.
  destruct (get_range_bounds net Hwf Hp30) as (H1 & H2 & Hord).
  pose proof (broadcast_address_value net Hwf) as Hbc.
  split; [now apply get_range_value|]. split; [exact Hord|]. split; [|split].
  - apply (contains4_interval net _ Hwf H1). lia.
  - apply (contains4_interval net _ Hwf H2). lia.
  - lia.
Qed.

(** X2, witness: the hosts of 10.47.0.0/24 are 10.47.0.1 - 10.47.0.254. *)
Lemma get_range_is_the_host_range_witness :
  get_range ConfigExamples.net47 = Ok (170852353, 170852606).
Proof.
  refine (eq_trans (proj1 (get_range_is_the_host_range ConfigExamples.net47 _ _)) _).
  - repeat split; vm_compute; congruence.
  - vm_compute. discriminate.
  - reflexivity.
Defined.

Lemma get_range_31 net :
  wf_network net -> ipaddress.prefixlen net = 31 ->
  get_range net = Ok (ipaddress.network_address net + 1, ipaddress.network_address net).
Proof.
  intros Hwf E. pose proof Hwf as (Hp & Hna & _).
  pose proof (network_end_bound net Hwf) as Hend.
  pose proof (broadcast_address_value net Hwf) as Hbc.
  unfold ipaddress.ALL_ONES in *.
  rewrite E in *. change (2 ^ (32 - 31)) with 2 in *.
  unfold get_range. rewrite Hbc.
  rewrite !IPv4Address_ok by (unfold ipaddress.ALL_ONES; lia).
  f_equal. f_equal. lia.
Qed.

Lemma get_range_32 net :
  wf_network net -> ipaddress.prefixlen net = 32 ->
  get_range net
  = if (ipaddress.network_address net =? 0)
       || (ipaddress.network_address net =? ipaddress.ALL_ONES)
    then Raise AddressValueError
    else Ok (ipaddress.network_address net + 1, ipaddress.network_address net - 1).
Proof.
  intros Hwf E. pose proof Hwf as (Hp & Hna & _).
  pose proof (broadcast_address_value net Hwf) as Hbc.
  rewrite E in *. change (2 ^ (32 - 32)) with 1 in *.
  unfold get_range. rewrite Hbc.
  destruct (Z.eqb_spec (ipaddress.network_address net) 0) as [E0|N0].
  { rewrite E0. reflexivity. }
  destruct (Z.eqb_spec (ipaddress.network_address net) ipaddress.ALL_ONES) as [E1|N1].
  { rewrite E1. reflexivity. }
  unfold ipaddress.ALL_ONES in *. cbn [orb].
  rewrite !IPv4Address_ok by (unfold ipaddress.ALL_ONES; lia).
  f_equal. f_equal. lia.
Qed.

(** X3: for the two longest prefixes [get_range] gives no usable range.
    For a /31 network it returns the two addresses in reverse order; for
    a /32 network it returns the neighbours of the single address, again
    in reverse order, or raises [AddressValueError] when that address is
    the first or the last of the address space. *)
Theorem get_range_of_a_small_network net :
  wf_network net -> 31 <= ipaddress.prefixlen net ->
  (ipaddress.prefixlen net = 31 ->
     get_range net = Ok (ipaddress.network_address net + 1, ipaddress.network_address net))
  /\ (ipaddress.prefixlen net = 32 ->
        0 < ipaddress.network_address net < ipaddress.ALL_ONES ->
        get_range net
        = Ok (ipaddress.network_address net + 1, ipaddress.network_address net - 1))
  /\ (ipaddress.prefixlen net = 32 ->
        ipaddress.network_address net = 0
        \/ ipaddress.network_address net = ipaddress.ALL_ONES ->
        get_range net = Raise AddressValueError).
Proof.
  intros Hwf _. split; [now apply get_range_31|]. split.
  - intros E Hin. rewrite (get_range_32 net Hwf E).
    destruct (Z.eqb_spec (ipaddress.network_address net) 0); [lia|].
    destruct (Z.eqb_spec (ipaddress.network_address net) ipaddress.ALL_ONES); [lia|].
    reflexivity.
  - intros E Hedge. rewrite (get_range_32 net Hwf E).
    destruct Hedge as [->| ->]; reflexivity.
Qed.

(** X3, witness: 10.47.0.0/31 gives (10.47.0.1, 10.47.0.0). *)
Lemma get_range_of_a_small_network_witness :
  get_range {| ipaddress.network_address := 170852352; ipaddress.prefixlen := 31 |}
  = Ok (170852353, 170852352).
Proof.
  refine (proj1 (get_range_of_a_small_network
                   {| ipaddress.network_address := 170852352; ipaddress.prefixlen := 31 |}
                   _ _) _).
  - repeat split; vm_compute; congruence.
  - vm_compute. discriminate.
  - reflexivity.
Defined.

Section CheckMore.
Import DHCPServerConfiguration.
Variable parse : string -> option Z.

(** What an accepted configuration satisfies. *)
Lemma check_ok_inv cfg :
  snd (check parse cfg) = Ok tt ->
  server_ip cfg <> None /\ endpoints_32bit cfg /\ range_in_network cfg
  /\ 2 <= dhcp_range_len cfg /\ parse (router cfg) <> None.
Proof.
  unfold check, endpoints_32bit, range_in_network, ipaddress.IPv4Address.
  destruct (server_ip cfg); [|discriminate].
  destruct (Z.ltb_spec (fst (range cfg)) 0); [discriminate|].
  destruct (Z.ltb_spec ipaddress.ALL_ONES (fst (range cfg))); [discriminate|].
  destruct (Z.ltb_spec (snd (range cfg)) 0); [discriminate|].
  destruct (Z.ltb_spec ipaddress.ALL_ONES (snd (range cfg))); [discriminate|].
  cbn [orb].
  destruct (ipaddress.contains4 (network cfg) (fst (range cfg))); [|discriminate].
  destruct (ipaddress.contains4 (network cfg) (snd (range cfg))); [|discriminate].
  cbn [negb orb].
  destruct (Z.ltb_spec (dhcp_range_len cfg) 2); [discriminate|].
  destruct (parse (router cfg)); [|discriminate].
  intros _. repeat split; (lia || congruence).
Qed.

(** X4: a configuration that [check] accepts on a well-formed network has
    its whole allocation range inside the network, the range holds at
    least three addresses, and [in_range] accepts every address of the
    range. *)
Theorem checked_range_is_accepted_by_in_range cfg :
  wf_network (network cfg) ->
  snd (check parse cfg) = Ok tt ->
  3 <= addresses_in_range cfg
  /\ forall a, within_range cfg a -> in_range cfg a = Ok true.
Proof.
  intros Hwf Hok.
  destruct (check_ok_inv cfg Hok) as (_ & [Hs He] & [Cs Ce] & Hlen & _).
  unfold dhcp_range_len in Hlen. split; [unfold addresses_in_range; lia|].
  intros a [Hlo Hhi].
  apply (contains4_interval _ _ Hwf Hs) in Cs.
  apply (contains4_interval _ _ Hwf He) in Ce.
  assert (0 <= a <= ipaddress.ALL_ONES) as Ha by lia.
  rewrite (in_range_is_network_membership cfg a Ha). f_equal.
  apply (contains4_interval _ _ Hwf Ha). lia.
Qed.

(** X5: a configuration whose range is what [get_range] returns for its
    network, with a server address and a router that is an address, is
    accepted by [check] exactly when the prefix length is at most 29: the
    host range of a /30 network (two addresses) is refused. *)
Theorem check_of_the_host_range cfg :
  wf_network (network cfg) ->
  get_range (network cfg) = Ok (range cfg) ->
  server_ip cfg <> None -> parse (router cfg) <> None ->
  snd (check parse cfg) = Ok tt <-> ipaddress.prefixlen (network cfg) <= 29.
Proof.
  intros Hwf Hrange Hsrv Hrouter. pose proof Hwf as (Hp & Hna & _).
  destruct (Z.le_gt_cases (ipaddress.prefixlen (network cfg)) 30) as [H30|H31].
  - destruct (get_range_bounds _ Hwf H30) as (B1 & B2 & Hord).
    pose proof (proj2 (contains4_interval _ _ Hwf B1)) as C1.
    pose proof (proj2 (contains4_interval _ _ Hwf B2)) as C2.
    rewrite (get_range_value _ Hwf H30) in Hrange. injection Hrange as Hr.
    assert (fst (range cfg) = ipaddress.network_address (network cfg) + 1) as Hfst
      by now rewrite <- Hr.
    assert (snd (range cfg) = ipaddress.broadcast_address (network cfg) - 1) as Hsnd
      by now rewrite <- Hr.
    pose proof (network_end_bound _ Hwf) as Hend.
    pose proof (broadcast_address_value _ Hwf) as Hbc.
    unfold ipaddress.ALL_ONES in Hna.
    assert (endpoints_32bit cfg) as H32.
    { unfold endpoints_32bit, ipaddress.ALL_ONES. rewrite Hfst, Hsnd. lia. }
    assert (range_in_network cfg) as Hin.
    { unfold range_in_network. rewrite Hfst, Hsnd. split; [apply C1|apply C2]; lia. }
    split.
    + intros Hok. destruct (check_ok_inv cfg Hok) as (_ & _ & _ & Hlen & _).
      unfold dhcp_range_len in Hlen. rewrite Hfst, Hsnd in Hlen.
      destruct (Z.le_gt_cases (ipaddress.prefixlen (network cfg)) 29); [assumption|].
      assert (ipaddress.prefixlen (network cfg) = 30) as E30 by lia.
      rewrite E30 in *. change (2 ^ (32 - 30)) with 4 in *. lia.
    + intros H29.
      destruct (server_ip cfg) as [srv|] eqn:Es; [|congruence].
      rewrite (check_with_server parse cfg srv Es H32).
      destruct Hin as [-> ->]. cbn [negb orb].
      assert (8 <= 2 ^ (32 - ipaddress.prefixlen (network cfg))) as HM.
      { change 8 with (2 ^ 3). apply Z.pow_le_mono_r; lia. }
      unfold dhcp_range_len. rewrite Hfst, Hsnd.
      destruct (Z.ltb_spec (ipaddress.broadcast_address (network cfg) - 1
                            - (ipaddress.network_address (network cfg) + 1)) 2); [lia|].
      destruct (parse (router cfg)); [|congruence]. now destruct (negb _).
  - split; [|lia]. intros Hok. exfalso.
    destruct (check_ok_inv cfg Hok) as (_ & [Hs He] & [Cs Ce] & Hlen & _).
    unfold dhcp_range_len in Hlen.
    assert (ipaddress.prefixlen (network cfg) = 31
            \/ ipaddress.prefixlen (network cfg) = 32) as [E|E] by lia.
    + rewrite (get_range_31 _ Hwf E) in Hrange. injection Hrange as Hr.
      rewrite <- Hr in Hlen. cbn in Hlen. lia.
    + rewrite (get_range_32 _ Hwf E) in Hrange.
      destruct (_ || _); [discriminate|]. injection Hrange as Hr.
      rewrite <- Hr in Hlen. cbn in Hlen. lia.
Qed.

(** X6: whatever the other fields are, a configuration that keeps the
    default network (10.15.0.0/24) and the default range (10.47.0.1 -
    10.47.0.254) is refused by [check]: the default range is outside the
    default network. *)
Theorem defaults_are_refused cfg :
  network cfg = network default -> range cfg = range default ->
  snd (check parse cfg) = Raise InvalidDHCPConfiguration.
Proof.
  intros Hn Hr. unfold check. rewrite Hn, Hr.
  destruct (server_ip cfg); reflexivity.
Qed.

End CheckMore.

(** X4, witness: 10.47.0.15 lies in the range 10.47.0.10 - 10.47.0.20. *)
Lemma checked_range_is_accepted_by_in_range_witness :
  DHCPServerConfiguration.in_range ConfigExamples.ten_twenty 170852367 = Ok true.
Proof.
  refine (proj2 (checked_range_is_accepted_by_in_range ipaddress.ip_int_from_string
                   ConfigExamples.ten_twenty _ _) 170852367 _).
  - repeat split; vm_compute; congruence.
  - reflexivity.
  - split; vm_compute; discriminate.
Defined.

(** X5, witness: the host range of 10.47.0.0/24 passes. *)
Lemma check_of_the_host_range_witness :
  snd (DHCPServerConfiguration.check ipaddress.ip_int_from_string
         (ConfigExamples.with_range (170852353, 170852606) (Some 170852353))) = Ok tt.
Proof.
  refine (proj2 (check_of_the_host_range ipaddress.ip_int_from_string
                   (ConfigExamples.with_range (170852353, 170852606) (Some 170852353))
                   _ _ _ _) _).
  - repeat split; vm_compute; congruence.
  - reflexivity.
  - discriminate.
  - vm_compute. discriminate.
  - vm_compute. discriminate.
Defined.

(** X6, witness: the defaults with a server address 10.15.0.1. *)
Lemma defaults_are_refused_witness :
  snd (DHCPServerConfiguration.check ipaddress.ip_int_from_string
         {| DHCPServerConfiguration.network :=
              DHCPServerConfiguration.network DHCPServerConfiguration.default;
            DHCPServerConfiguration.range :=
              DHCPServerConfiguration.range DHCPServerConfiguration.default;
            DHCPServerConfiguration.router := "10.15.0.1";
            DHCPServerConfiguration.domain := "local";
            DHCPServerConfiguration.lease_time := 300;
            DHCPServerConfiguration.domain_name_servers := [];
            DHCPServerConfiguration.server_ip := Some 168755201 |})
  = Raise InvalidDHCPConfiguration.
Proof.
  apply (defaults_are_refused ipaddress.ip_int_from_string); reflexivity.
Defined.

(** ** [from_dict] *)

Lemma dhcp_range_is_no_field (kwargs : gmap string FromDict.Kw) r :
  FromDict.dataclass_init (<["dhcp_range" := FromDict.KwRange r]> kwargs)
  = inl FromDict.TypeError_.
Proof.
  unfold FromDict.dataclass_init. case_bool_decide as Hsub; [|reflexivity].
  exfalso.
  assert ("dhcp_range" ∈ FromDict.field_names) as Hin.
  { apply Hsub. apply elem_of_dom. rewrite lookup_insert_eq. eauto. }
  unfold FromDict.field_names in Hin.
  repeat (apply elem_of_union in Hin as [Hin|Hin];
          [|apply elem_of_singleton in Hin; discriminate]).
  apply elem_of_singleton in Hin. discriminate.
Qed.

(** X7: [from_dict] never returns a configuration.  It stores the range
    under the key ['dhcp_range'], which is not a field of the dataclass,
    so when the network entry is present and readable and the range entry
    is absent, empty or readable, the constructor is reached and raises
    [TypeError]; in every other case an earlier step raises. *)
Theorem from_dict_always_raises
    (ip_network_of : FromDict.DictVal -> option ipaddress.IPv4Network)
    (parse : string -> option Z) (data : gmap string FromDict.DictVal) :
  (exists e, FromDict.from_dict ip_network_of parse data = inl e)
  /\ (data !! "network" = None ->
      FromDict.from_dict ip_network_of parse data = inl FromDict.KeyError_)
  /\ (forall v net r,
        data !! "network" = Some v -> ip_network_of v = Some net ->
        FromDict.dhcp_range parse data net = inr r ->
        FromDict.from_dict ip_network_of parse data = inl FromDict.TypeError_).
Proof.
  split; [|split].
  - unfold FromDict.from_dict.
    destruct (data !! "network") as [v|]; [|eauto].
    destruct (ip_network_of v) as [net|]; [|eauto].
    destruct (FromDict.dhcp_range parse data net) as [e|r]; [eauto|].
    rewrite dhcp_range_is_no_field. eauto.
  - intros E. unfold FromDict.from_dict. now rewrite E.
  - intros v net r Ev En Er. unfold FromDict.from_dict. rewrite Ev, En, Er.
    apply dhcp_range_is_no_field.
Qed.

(** The constructor itself accepts the field names: the failure above is
    the key ['dhcp_range'], not the call. *)
Example dataclass_init_with_range :
  FromDict.dataclass_init {[ "range" := FromDict.KwRange (170852353, 170852606) ]}
  <> inl FromDict.TypeError_.
Proof. vm_compute. discriminate. Qed.

(** ** The database configuration *)

Lemma supported_iff d :
  DataBaseConfiguration.supported d = true
  <-> d = "sqlite" \/ d = "psql" \/ d = "cockdb".
Proof.
  unfold DataBaseConfiguration.supported.
  rewrite !orb_true_iff, !String.eqb_eq. tauto.
Qed.

(** X8: building a [DataBaseConfiguration] fails with
    [InvalidDatabaseConfiguration] exactly when the driver is none of
    sqlite, psql and cockdb; when it succeeds the engine is set, so the
    [engine] property never fails, and the engine is the one of the
    driver: the file engine on [database] for sqlite (host, port, user and
    password are not used), the client engines on the five settings
    otherwise. *)
Theorem post_init_sets_the_engine (self : DataBaseConfiguration.t) :
  (DataBaseConfiguration.post_init self = inl DataBaseConfiguration.InvalidDatabaseConfiguration
   <-> ~ (DataBaseConfiguration.driver self = "sqlite"
          \/ DataBaseConfiguration.driver self = "psql"
          \/ DataBaseConfiguration.driver self = "cockdb"))
  /\ (forall _engine,
        DataBaseConfiguration.post_init self = inr _engine ->
        exists e,
          _engine = Some e /\ DataBaseConfiguration.engine _engine = Ok e
          /\ e = (if String.eqb (DataBaseConfiguration.driver self) "sqlite"
                  then DataBaseConfiguration.SQLiteEngine (DataBaseConfiguration.database self)
                  else if String.eqb (DataBaseConfiguration.driver self) "psql"
                  then DataBaseConfiguration.PostgresEngine
                         (DataBaseConfiguration.engine_config self)
                  else DataBaseConfiguration.CockroachEngine
                         (DataBaseConfiguration.engine_config self))).
Proof.
  unfold DataBaseConfiguration.post_init, DataBaseConfiguration.check.
  pose proof (supported_iff (DataBaseConfiguration.driver self)) as Hs.
  destruct (DataBaseConfiguration.supported (DataBaseConfiguration.driver self)) eqn:E;
    cbn [negb].
  - split.
    + split; [discriminate|]. intros Hno. exfalso. apply Hno, Hs. reflexivity.
    + intros _engine [= <-].
      unfold DataBaseConfiguration.supported in E.
      destruct (String.eqb (DataBaseConfiguration.driver self) "sqlite"); [eauto|].
      destruct (String.eqb (DataBaseConfiguration.driver self) "psql"); [eauto|].
      destruct (String.eqb (DataBaseConfiguration.driver self) "cockdb"); [eauto|].
      discriminate.
  - split; [|discriminate].
    split; [|reflexivity]. intros _ Hyes. apply Hs in Hyes. discriminate.
Qed.

(** X9: [_read_environment] raises [ValueError] when [DB_DRIVER] is not
    set, although the default driver of [DataBaseConfiguration] is
    accepted; when it is set, the call passes exactly for the drivers with
    which a [DataBaseConfiguration] can be built. *)
Theorem read_environment_and_database_agree (environ : gmap string string) :
  (environ !! "DB_DRIVER" = None ->
     Config._read_environment environ = Raise ValueError
     /\ DataBaseConfiguration.check DataBaseConfiguration.default = inr tt)
  /\ (forall d self,
        environ !! "DB_DRIVER" = Some d -> DataBaseConfiguration.driver self = d ->
        (Config._read_environment environ = Ok tt
         <-> DataBaseConfiguration.check self = inr tt)
        /\ (Config._read_environment environ = Raise ValueError
            <-> DataBaseConfiguration.check self
                = inl DataBaseConfiguration.InvalidDatabaseConfiguration)).
Proof.
  unfold Config._read_environment, DataBaseConfiguration.check. split.
  - intros ->. split; reflexivity.
  - intros d self -> ->.
    destruct (DataBaseConfiguration.supported d); cbn [negb];
      repeat split; intros; (reflexivity || discriminate).
Qed.

(** ** The engine: what [receive] changes and sends *)

(** X10: the names [DHCPMessages[...]] finds are exactly the names of the
    eight members, each found under its own name; any other string, and
    any value that is not a string, is not found (the [KeyError] that
    [receive] catches). *)
Theorem DHCPMessages_lookup_by_name (v : PyVal) (m : DHCPMessages) :
  DHCPMessages_getitem v = Some m <-> v = PyStr (DHCPMessages_name m).
Proof.
  split.
  - destruct v as [| |s| |]; cbn; try discriminate.
    repeat (match goal with
            | |- context [String.eqb ?a ?b] => destruct (String.eqb_spec a b)
            end; [intros [= <-]; subst; reflexivity|]).
    discriminate.
  - intros ->. destruct m; reflexivity.
Qed.

Lemma IPv4Address_raise a e :
  ipaddress.IPv4Address a = Raise e ->
  e = AddressValueError /\ ~ 0 <= a <= ipaddress.ALL_ONES.
Proof.
  unfold ipaddress.IPv4Address.
  destruct (a <? 0) eqn:E1; cbn [orb].
  - intros [= <-]. apply Z.ltb_lt in E1. split; [reflexivity|lia].
  - destruct (ipaddress.ALL_ONES <? a) eqn:E2; [|discriminate].
    intros [= <-]. apply Z.ltb_lt in E2. split; [reflexivity|lia].
Qed.

Section EngineMore.
Context {DB : Type} `{HostStore DB}.
Implicit Types (s : DHCPServer.t DB) (self : Session.t) (packet : DHCPPacket).

Lemma emit_nil s : DHCPServer.emit [] s = s.
Proof. destruct s. unfold DHCPServer.emit. cbn. now rewrite app_nil_r. Qed.

Lemma set_hosts_same s : DHCPServer.set_hosts (DHCPServer.hosts s) s = s.
Proof. now destruct s. Qed.

Lemma broadcast_untyped env packet s :
  message_type packet = None -> exists e, broadcast env packet s = (Raise e, s).
Proof.
  unfold message_type, broadcast. intros Hty.
  destruct (by_code 53 (options packet)) as [m|]; [|eexists; reflexivity].
  destruct (value m) as [d|e]; [|eexists; reflexivity].
  rewrite Hty. eexists; reflexivity.
Qed.

(** X11: how [broadcast] ends.  On a packet without a message type it
    raises before anything is logged or sent.  On a packet with one the
    call is logged; when the socket cannot be opened [OSError] escapes
    and nothing is sent; otherwise [broadcast] returns normally: the
    packet is sent to 255.255.255.255 and to the broadcast address of the
    network when all goes well, to the first of them only when the second
    send fails, and to neither when the packet does not encode or [bind]
    or the first send fails; each failure is logged by two lines. *)
Theorem broadcast_outcomes env packet s :
  (message_type packet = None -> exists e, broadcast env packet s = (Raise e, s))
  /\ (message_type packet <> None -> network env = SocketError ->
      broadcast env packet s
      = (Raise OSError, DHCPServer.emit [Log INFO; Broadcast packet] s))
  /\ (message_type packet <> None -> network env <> SocketError ->
      exists evs,
        broadcast env packet s
        = (Ok tt, DHCPServer.emit ([Log INFO; Broadcast packet] ++ evs) s)
        /\ if encodes env packet
           then match network env with
                | NetworkUp =>
                    evs = [SendTo packet 4294967295;
                           SendTo packet (ipaddress.broadcast_address
                                            (CoreConfiguration.network (DHCPServer.conf s)))]
                | SecondSendError => evs = [SendTo packet 4294967295; Log ERROR; Log ERROR]
                | _ => evs = [Log ERROR; Log ERROR]
                end
           else evs = [Log ERROR; Log ERROR]).
Proof.
  split; [apply broadcast_untyped|]. split.
  - intros Hty Hn. destruct (message_type packet) as [ty|] eqn:E; [|contradiction].
    rewrite (broadcast_typed env packet ty s E).
    unfold broadcast_result, broadcast_events, send_events. now rewrite Hn.
  - intros Hty Hn. destruct (message_type packet) as [ty|] eqn:E; [|contradiction].
    exists (send_events env (DHCPServer.conf s) packet).
    rewrite (broadcast_typed env packet ty s E), (broadcast_result_ok env Hn).
    split; [reflexivity|].
    unfold send_events. destruct (network env); try congruence;
      destruct (encodes env packet); reflexivity.
Qed.

Lemma broadcast_events_replies env conf p packet :
  replies_to conf packet p ->
  broadcasts (broadcast_events env conf p) = [p]
  /\ Forall (replies_to conf packet) (sent_packets (broadcast_events env conf p))
  /\ (network env = SocketError -> sent_packets (broadcast_events env conf p) = []).
Proof.
  intros Hp. split; [apply broadcasts_broadcast_events|].
  unfold broadcast_events, send_events.
  destruct (network env), (encodes env p); cbn;
    (split; [repeat (constructor; [assumption|]); constructor
            |first [reflexivity | discriminate]]).
Qed.

Lemma nak_packet_replies self env packet s :
  replies_to (DHCPServer.conf s) packet (nak_packet self env packet s).
Proof. repeat split. Qed.

Lemma ack_packet_replies self env packet s host :
  replies_to (DHCPServer.conf s) packet (ack_packet self env packet s host).
Proof. repeat split. Qed.

Lemma offer_packet_replies self env packet s a :
  replies_to (DHCPServer.conf s) packet (offer_packet self env packet s a).
Proof. repeat split. Qed.

(** [receive] ends without a broadcast: normally, or by an exception. *)
Lemma leaves_quiet self env packet s (r : Result PyVal) db evs :
  broadcasts evs = [] -> sent_packets evs = [] ->
  (db = DHCPServer.hosts s
   \/ (Session.closed self = false /\ op packet = "BOOTREQUEST"
       /\ announces packet "DHCPDISCOVER"
       /\ exists hint name,
            offer_req_ip packet = Ok hint /\ offer_hostname packet = Ok name
            /\ db = fst (find_or_register (DHCPServer.hosts s) env (chaddr packet)
                           hint name))) ->
  (forall e, r = Raise e ->
     raise_reason env s packet e /\ ~ answerable env s packet
     /\ Session.closed self = false /\ op packet = "BOOTREQUEST") ->
  receive_leaves self env packet s r db evs.
Proof.
  intros Hb Hs Hdb Hr. split; [exact Hdb|]. split; [|split; [|split]].
  - intros e He. destruct (Hr e He) as (Hreason & _ & Hc & Hop). auto.
  - intros Hans. destruct r as [v|e]; [eauto|].
    destruct (Hr e eq_refl) as (_ & Hnot & _). contradiction.
  - now left.
  - rewrite Hs. constructor.
Qed.

(** [receive] ends with the broadcast of the reply [p]. *)
Lemma leaves_reply self env packet s db pre p :
  broadcasts pre = [] -> sent_packets pre = [] ->
  replies_to (DHCPServer.conf s) packet p ->
  Session.closed self = false -> op packet = "BOOTREQUEST" ->
  (db = DHCPServer.hosts s
   \/ (Session.closed self = false /\ op packet = "BOOTREQUEST"
       /\ announces packet "DHCPDISCOVER"
       /\ exists hint name,
            offer_req_ip packet = Ok hint /\ offer_hostname packet = Ok name
            /\ db = fst (find_or_register (DHCPServer.hosts s) env (chaddr packet)
                           hint name))) ->
  receive_leaves self env packet s
    (match broadcast_result env with Ok _ => Ok PyNone | Raise e => Raise e end)
    db (pre ++ broadcast_events env (DHCPServer.conf s) p).
Proof.
  intros Hb Hs Hp Hc Hop Hdb.
  destruct (broadcast_events_replies env (DHCPServer.conf s) p packet Hp)
    as (Hbp & Hsp & Hnone).
  split; [exact Hdb|]. split; [|split; [|split]].
  - intros e He. unfold broadcast_result in He.
    destruct (network env) eqn:Hn; try discriminate.
    injection He as <-. split; [|split; [|split; assumption]].
    + right; right; right; left. auto.
    + rewrite sent_packets_app, Hs. now apply Hnone.
  - intros (_ & _ & Hn & _). rewrite (broadcast_result_ok env Hn). eauto.
  - right. exists p. split; [|exact Hp]. now rewrite broadcasts_app, Hb.
  - now rewrite sent_packets_app, Hs.
Qed.

(** An option 50 or 12 that does not decode: the reason of the exception. *)
Lemma undecoded_option env s packet c o e :
  c = 50 \/ c = 12 ->
  by_code c (options packet) = Some o -> value o = Raise e ->
  raise_reason env s packet e /\ ~ answerable env s packet.
Proof.
  intros Hc Ho Hv. split.
  - right; left. exists c, o. split; [|auto]. destruct Hc; auto.
  - intros (_ & _ & _ & Hdec & _). exact (Hdec c o e Hc Ho Hv).
Qed.

Lemma invalid_mac env s packet :
  valid_mac (chaddr packet) = false ->
  raise_reason env s packet DHCPValueError /\ ~ answerable env s packet.
Proof.
  intros Hm. split.
  - right; right; left. auto.
  - intros (_ & Hv & _). congruence.
Qed.

(** The negative branch of [send_ack], as [receive] ends with it. *)
Lemma nak_leaves self env packet s pre :
  broadcasts pre = [] -> sent_packets pre = [] ->
  Session.closed self = false -> op packet = "BOOTREQUEST" ->
  exists r evs,
    bind (fun s0 => nak_outcome self env packet s0 pre) (fun _ => ret PyNone) s
    = (r, DHCPServer.emit evs (DHCPServer.set_hosts (DHCPServer.hosts s) s))
    /\ receive_leaves self env packet s r (DHCPServer.hosts s) evs.
Proof.
  intros Hb Hs Hc Hop. unfold bind, nak_outcome. rewrite set_hosts_same.
  destruct (valid_mac (chaddr packet)) eqn:Hm.
  - exists (match broadcast_result env with Ok _ => Ok PyNone | Raise e => Raise e end),
      (pre ++ broadcast_events env (DHCPServer.conf s) (nak_packet self env packet s))%list.
    split; [destruct (broadcast_result env); reflexivity|].
    apply leaves_reply; auto using nak_packet_replies.
  - exists (Raise DHCPValueError), pre. split; [reflexivity|].
    apply leaves_quiet; [assumption|assumption|now left|].
    intros e [= <-]. destruct (invalid_mac env s packet Hm). auto.
Qed.

(** The acknowledging branch of [send_ack], as [receive] ends with it. *)
Lemma ack_leaves self env packet s host :
  get (DHCPServer.hosts s) (chaddr packet) = Some host ->
  Session.closed self = false -> op packet = "BOOTREQUEST" ->
  exists r evs,
    bind (fun s0 => ack_outcome self env packet s0 host) (fun _ => ret PyNone) s
    = (r, DHCPServer.emit evs (DHCPServer.set_hosts (DHCPServer.hosts s) s))
    /\ receive_leaves self env packet s r (DHCPServer.hosts s) evs.
Proof.
  intros Hget Hc Hop. unfold bind, ack_outcome. rewrite set_hosts_same.
  destruct (valid_mac (chaddr packet)) eqn:Hm.
  - destruct (ipaddress.IPv4Address (ip host)) as [a|e] eqn:Ea.
    + exists (match broadcast_result env with Ok _ => Ok PyNone | Raise e => Raise e end),
        ([StoreGet (chaddr packet)]
         ++ broadcast_events env (DHCPServer.conf s)
              (ack_packet self env packet s host))%list.
      split; [destruct (broadcast_result env); reflexivity|].
      apply leaves_reply; auto using ack_packet_replies.
    + exists (Raise e), [StoreGet (chaddr packet)]. split; [reflexivity|].
      apply leaves_quiet; [reflexivity|reflexivity|now left|].
      intros e' [= <-]. destruct (IPv4Address_raise _ _ Ea) as [-> Hbad].
      split; [|split; [|auto]].
      * right; right; right; right. split; [reflexivity|]. left. eauto.
      * intros (_ & _ & _ & _ & Hip & _). apply Hbad. now apply Hip.
  - exists (Raise DHCPValueError), [StoreGet (chaddr packet)]. split; [reflexivity|].
    apply leaves_quiet; [reflexivity|reflexivity|now left|].
    intros e [= <-]. destruct (invalid_mac env s packet Hm). auto.
Qed.

(** Every way [receive] can end. *)
Lemma receive_shape self env packet s :
  exists r db evs,
    receive self env packet s
    = (r, DHCPServer.emit evs (DHCPServer.set_hosts db s))
    /\ receive_leaves self env packet s r db evs.
Proof.
  assert (forall (v : PyVal) evs,
            broadcasts evs = [] -> sent_packets evs = [] ->
            exists r db evs',
              (Ok v, DHCPServer.emit evs s)
              = (r, DHCPServer.emit evs' (DHCPServer.set_hosts db s))
              /\ receive_leaves self env packet s r db evs') as Hquiet.
  { intros v evs Hb Hs. exists (Ok v), (DHCPServer.hosts s), evs.
    split; [now rewrite set_hosts_same|].
    apply leaves_quiet; [assumption|assumption|now left|discriminate]. }
  assert (forall (e : PyExn) evs,
            broadcasts evs = [] -> sent_packets evs = [] ->
            Session.closed self = false -> op packet = "BOOTREQUEST" ->
            raise_reason env s packet e /\ ~ answerable env s packet ->
            exists r db evs',
              (Raise e, DHCPServer.emit evs s)
              = (r, DHCPServer.emit evs' (DHCPServer.set_hosts db s))
              /\ receive_leaves self env packet s r db evs') as Hraise.
  { intros e evs Hb Hs Hc Hop [Hreason Hnot]. exists (Raise e), (DHCPServer.hosts s), evs.
    split; [now rewrite set_hosts_same|].
    apply leaves_quiet; [assumption|assumption|now left|].
    intros e' [= <-]. auto. }
  assert (forall v : PyVal,
            exists r db evs',
              (Ok v, s) = (r, DHCPServer.emit evs' (DHCPServer.set_hosts db s))
              /\ receive_leaves self env packet s r db evs') as Hquiet0.
  { intros v. pose proof (Hquiet v [] eq_refl eq_refl) as Hq.
    now rewrite emit_nil in Hq. }
  assert (forall e : PyExn,
            Session.closed self = false -> op packet = "BOOTREQUEST" ->
            raise_reason env s packet e /\ ~ answerable env s packet ->
            exists r db evs',
              (Raise e, s) = (r, DHCPServer.emit evs' (DHCPServer.set_hosts db s))
              /\ receive_leaves self env packet s r db evs') as Hraise0.
  { intros e Hc Hop Hwhy. pose proof (Hraise e [] eq_refl eq_refl Hc Hop Hwhy) as Hq.
    now rewrite emit_nil in Hq. }
  assert (Session.closed self = true \/ Session.closed self = false) as [Hopen|Hopen]
    by (destruct (Session.closed self); auto).
  { rewrite (receive_closed self env packet s Hopen). apply Hquiet0. }
  destruct (String.eqb_spec (op packet) "BOOTREQUEST") as [Hop|Hop].
  2:{ assert (receive self env packet s = (Ok PyNone, s)) as ->.
      { unfold receive. rewrite Hopen.
        destruct (String.eqb_spec (op packet) "BOOTREQUEST"); [contradiction|reflexivity]. }
      apply Hquiet0. }
  destruct (by_code 53 (options packet)) as [message|] eqn:Hm.
  2:{ assert (receive self env packet s = (Raise AttributeError, s)) as ->.
      { unfold receive. rewrite Hopen, Hop, Hm. reflexivity. }
      apply Hraise0; try (reflexivity || assumption). split.
      - left. auto.
      - intros (Hty & _). apply Hty. unfold message_type. now rewrite Hm. }
  rewrite (receive_open_request self env packet s message Hopen Hop Hm).
  unfold lookup_message.
  destruct (value message) as [d|e0] eqn:Hv.
  2:{ assert (raise_reason env s packet e0 /\ ~ answerable env s packet) as Hwhy.
      { split.
        - right; left. exists 53, message. auto.
        - intros (Hty & _). apply Hty. unfold message_type. now rewrite Hm, Hv. }
      destruct e0; first [now apply Hquiet | now apply Hraise0; auto]. }
  destruct (d !! "dhcp_message_type") as [ty|] eqn:Hty; [|now apply Hquiet].
  destruct (DHCPMessages_getitem ty) as [m|] eqn:Hg; [|now apply Hquiet].
  destruct m; try (now apply Hquiet).
  - (* Discover *)
    apply DHCPMessages_getitem_discover in Hg. subst ty.
    assert (announces packet "DHCPDISCOVER") as Hann.
    { unfold announces, message_type. now rewrite Hm, Hv, Hty. }
    destruct (offer_req_ip packet) as [hint|e1] eqn:Hhint.
    2:{ unfold bind. rewrite (send_offer_undecoded self env packet s e1) by now left.
        destruct (offer_req_ip_raise packet e1 Hhint) as (o & Ho & Hvo).
        apply Hraise0; try (reflexivity || assumption).
        apply (undecoded_option env s packet 50 o e1); auto. }
    destruct (offer_hostname packet) as [name|e1] eqn:Hname.
    2:{ unfold bind. rewrite (send_offer_undecoded self env packet s e1) by eauto.
        destruct (offer_hostname_raise packet e1 Hname) as (o & Ho & Hvo).
        apply Hraise0; try (reflexivity || assumption).
        apply (undecoded_option env s packet 12 o e1); auto. }
    unfold bind. rewrite (send_offer_eq self env packet s hint name Hhint Hname).
    destruct (find_or_register _ _ _ _ _) as [db a] eqn:Ef.
    assert (db = DHCPServer.hosts s
            \/ (Session.closed self = false /\ op packet = "BOOTREQUEST"
                /\ announces packet "DHCPDISCOVER"
                /\ exists hint name,
                     offer_req_ip packet = Ok hint /\ offer_hostname packet = Ok name
                     /\ db = fst (find_or_register (DHCPServer.hosts s) env (chaddr packet)
                                    hint name))) as Hdb.
    { right. repeat (split; [assumption || reflexivity|]).
      exists hint, name. now rewrite Ef. }
    destruct (a =? 0).
    { exists (Ok PyNone), db, [StoreFindOrRegister (chaddr packet) hint name].
      split; [reflexivity|].
      apply leaves_quiet; [reflexivity|reflexivity|exact Hdb|discriminate]. }
    destruct (valid_mac (chaddr packet)) eqn:Hmac.
    2:{ exists (Raise DHCPValueError), db, [StoreFindOrRegister (chaddr packet) hint name].
        split; [reflexivity|].
        apply leaves_quiet; [reflexivity|reflexivity|exact Hdb|].
        intros e [= <-]. destruct (invalid_mac env s packet Hmac). auto. }
    destruct (ipaddress.IPv4Address a) as [a'|e] eqn:Ea.
    2:{ exists (Raise e), db, [StoreFindOrRegister (chaddr packet) hint name].
        split; [reflexivity|].
        apply leaves_quiet; [reflexivity|reflexivity|exact Hdb|].
        intros e' [= <-]. destruct (IPv4Address_raise _ _ Ea) as [-> Hbad].
        split; [|split; [|auto]].
        - right; right; right; right. split; [reflexivity|]. right.
          exists hint, name. rewrite Ef. auto.
        - intros (_ & _ & _ & _ & _ & Hreg). apply Hbad.
          specialize (Hreg hint name Hhint Hname). now rewrite Ef in Hreg. }
    exists (match broadcast_result env with Ok _ => Ok PyNone | Raise e => Raise e end),
      db, ([StoreFindOrRegister (chaddr packet) hint name]
           ++ broadcast_events env (DHCPServer.conf s)
                (offer_packet self env packet s a))%list.
    split; [destruct (broadcast_result env); reflexivity|].
    apply leaves_reply; auto using offer_packet_replies.
  - (* Request *)
    unfold bind. rewrite send_ack_eq.
    destruct (get (DHCPServer.hosts s) (chaddr packet)) as [host|] eqn:Hget.
    + destruct (by_code 50 (options packet)) as [req_ip|] eqn:H50.
      * destruct (value req_ip) as [d50|e1] eqn:Hv50.
        -- destruct (decide (d50 !! "requested_ip_address" = Some (PyIP (ip host)))).
           ++ destruct (ack_leaves self env packet s host Hget Hopen Hop)
                as (r & evs & E & L).
              exists r, (DHCPServer.hosts s), evs. split; [exact E|exact L].
           ++ destruct (nak_leaves self env packet s [StoreGet (chaddr packet); Log ERROR]
                          eq_refl eq_refl Hopen Hop) as (r & evs & E & L).
              exists r, (DHCPServer.hosts s), evs. split; [exact E|exact L].
        -- apply Hraise; try (reflexivity || assumption).
           apply (undecoded_option env s packet 50 req_ip e1); auto.
      * destruct (ack_leaves self env packet s host Hget Hopen Hop)
          as (r & evs & E & L).
        exists r, (DHCPServer.hosts s), evs. split; [exact E|exact L].
    + destruct (nak_leaves self env packet s [StoreGet (chaddr packet); Log ERROR]
                  eq_refl eq_refl Hopen Hop) as (r & evs & E & L).
      exists r, (DHCPServer.hosts s), evs. split; [exact E|exact L].
Qed.

End EngineMore.

Section ReceiveMore.
Context {DB : Type} `{HostStore DB}.
Implicit Types (s : DHCPServer.t DB) (self : Session.t) (packet : DHCPPacket).

(** X12: whatever the session and the packet, [receive] leaves the
    configuration, the closed flag of the server, the transaction table
    and the start time as they are, and only appends to the trace.  The
    lease store is changed by nothing but a Discover from a client to an
    open session.  An exception leaves [receive] only for a client packet
    in an open session, and for one of these reasons: the packet has no
    option 53; the value of its option 53, 50 or 12 does not decode; its
    hardware address has not six octets; the socket cannot be opened; the
    address of the lease is no 32-bit value.  Nothing has been sent when
    an exception is raised, and a packet without option 53 changes
    nothing at all. *)
Theorem receive_changes_only_store_and_trace self env packet s :
  DHCPServer.conf (snd (receive self env packet s)) = DHCPServer.conf s
  /\ DHCPServer.closed (snd (receive self env packet s)) = DHCPServer.closed s
  /\ DHCPServer.sessions (snd (receive self env packet s)) = DHCPServer.sessions s
  /\ DHCPServer.time_started (snd (receive self env packet s)) = DHCPServer.time_started s
  /\ (exists evs,
        DHCPServer.effects (snd (receive self env packet s))
        = (DHCPServer.effects s ++ evs)%list
        /\ forall e, fst (receive self env packet s) = Raise e ->
             raise_reason env s packet e /\ sent_packets evs = []
             /\ Session.closed self = false /\ op packet = "BOOTREQUEST")
  /\ (~ (Session.closed self = false /\ op packet = "BOOTREQUEST"
         /\ announces packet "DHCPDISCOVER") ->
      DHCPServer.hosts (snd (receive self env packet s)) = DHCPServer.hosts s)
  /\ (by_code 53 (options packet) = None -> snd (receive self env packet s) = s).
Proof.
  destruct (receive_shape self env packet s)
    as (r & db & evs & E & Hdb & Hr & _ & _ & _).
  split; [now rewrite E|]. split; [now rewrite E|]. split; [now rewrite E|].
  split; [now rewrite E|]. split; [|split].
  - exists evs. rewrite E. split; [reflexivity|]. exact Hr.
  - intros Hnot. rewrite E. cbn [snd DHCPServer.hosts DHCPServer.emit DHCPServer.set_hosts].
    destruct Hdb as [->|(Ho & Hop & Ha & _)]; [reflexivity|].
    exfalso. apply Hnot. auto.
  - intros Hm. unfold receive. rewrite Hm.
    destruct (Session.closed self); [reflexivity|].
    destruct (String.eqb (op packet) "BOOTREQUEST"); reflexivity.
Qed.

(** X13: [receive] calls [broadcast] at most once per packet, and what it
    broadcasts and sends is a reply to that packet: a BOOTREPLY with the
    transaction id and the hardware address of the packet and the server
    address in [siaddr]. *)
Theorem receive_replies_to_the_packet self env packet s :
  exists evs,
    DHCPServer.effects (snd (receive self env packet s))
    = (DHCPServer.effects s ++ evs)%list
    /\ (length (broadcasts evs) <= 1)%nat
    /\ Forall (replies_to (DHCPServer.conf s) packet) (broadcasts evs)
    /\ Forall (replies_to (DHCPServer.conf s) packet) (sent_packets evs).
Proof.
  destruct (receive_shape self env packet s)
    as (r & db & evs & E & _ & _ & _ & Hb & Hs).
  exists evs. rewrite E. split; [reflexivity|].
  destruct Hb as [->|(p & -> & Hp)].
  - split; [cbn; lia|]. split; [constructor|exact Hs].
  - split; [cbn; lia|]. split; [constructor; [exact Hp|constructor]|exact Hs].
Qed.

(** X14: a Discover from a client with a six-octet hardware address to an
    open session, with options 50 and 12 that decode and a socket that
    can be opened, for which the store returns a 32-bit address other
    than 0, is answered by one Offer and no exception: a reply to the
    packet whose [yiaddr] is that address and whose options are the
    message type followed by the options of the configuration, sent twice
    when the network works and the packet encodes.  The server holds the
    store the call returned. *)
Theorem discover_is_answered_by_an_offer self env packet s db' a hint name :
  Session.closed self = false ->
  op packet = "BOOTREQUEST" ->
  announces packet "DHCPDISCOVER" ->
  valid_mac (chaddr packet) = true ->
  network env <> SocketError ->
  offer_req_ip packet = Ok hint ->
  offer_hostname packet = Ok name ->
  find_or_register (DHCPServer.hosts s) env (chaddr packet) hint name = (db', a) ->
  a <> 0 ->
  0 <= a <= ipaddress.ALL_ONES ->
  exists offer evs,
    fst (receive self env packet s) = Ok PyNone
    /\ DHCPServer.effects (snd (receive self env packet s))
       = (DHCPServer.effects s
          ++ StoreFindOrRegister (chaddr packet) hint name :: evs)%list
    /\ DHCPServer.hosts (snd (receive self env packet s)) = db'
    /\ broadcasts evs = [offer]
    /\ (network env = NetworkUp -> encodes env offer = true ->
        sent_packets evs = [offer; offer])
    /\ announces offer "DHCPOFFER"
    /\ yiaddr offer = a
    /\ secs offer = seconds_since_start self env
    /\ replies_to (DHCPServer.conf s) packet offer
    /\ options offer
       = message_type_option "DHCPOFFER" :: CoreConfiguration.options (DHCPServer.conf s).
Proof.
  intros Hopen Hop Hty Hmac Hnet Hhint Hname Hcall Ha Hrange.
  exists (offer_packet self env packet s a),
    (broadcast_events env (DHCPServer.conf s) (offer_packet self env packet s a)).
  rewrite (receive_open_discover self env packet s Hopen Hop Hty).
  unfold bind. rewrite (send_offer_eq self env packet s hint name Hhint Hname), Hcall.
  destruct (Z.eqb_spec a 0); [contradiction|].
  rewrite Hmac, (IPv4Address_ok _ Hrange), (broadcast_result_ok env Hnet).
  cbn [fst snd ret].
  split; [reflexivity|]. split; [reflexivity|]. split; [reflexivity|].
  split; [apply broadcasts_broadcast_events|].
  split; [apply sent_broadcast_events_up|].
  split; [apply offer_packet_type|].
  repeat split.
Qed.

End ReceiveMore.

(** X14, witness (Scenario A, first client): the Offer carries 10.47.0.1. *)
Lemma discover_is_answered_by_an_offer_witness :
  exists offer,
    broadcasts
      (DHCPServer.effects
         (snd (receive Scenario.open_session (Scenario.at_time 5)
                 (Scenario.client "DHCPDISCOVER" Scenario.mac1 7 [])
                 (Scenario.server Scenario.store_A))))
    = [offer]
    /\ yiaddr offer = Scenario.ip1.
Proof.
  destruct (discover_is_answered_by_an_offer Scenario.open_session (Scenario.at_time 5)
              (Scenario.client "DHCPDISCOVER" Scenario.mac1 7 [])
              (Scenario.server Scenario.store_A)
              (fst (HostDatabase.find_or_allocate Scenario.store_A (Scenario.at_time 5)
                      Scenario.mac1 (PyIP 0) PyNone))
              Scenario.ip1 (PyIP 0) PyNone)
    as (offer & evs & _ & E & _ & Hb & _ & _ & Hy & _).
  - reflexivity.
  - reflexivity.
  - vm_compute; reflexivity.
  - vm_compute; reflexivity.
  - discriminate.
  - reflexivity.
  - reflexivity.
  - vm_compute; reflexivity.
  - discriminate.
  - vm_compute. split; discriminate.
  - exists offer. split; [|exact Hy]. rewrite E. exact Hb.
Defined.

(** ** The cycle of [_worker] *)

Lemma is_done_mono session env env' :
  Session.is_done session env = true -> (now env <= now env')%Q ->
  Session.is_done session env' = true.
Proof.
  rewrite !is_done_spec. intros [Hc|Hlt] Hle; [now left|right].
  now apply (Qlt_le_trans _ (now env)).
Qed.

Lemma fresh_session_not_done env :
  (now env <= float_add (clock_timeout env) 30)%Q ->
  Session.is_done (Session.init env) env = false.
Proof.
  intros Hle. destruct (Session.is_done (Session.init env) env) eqn:E; [|reflexivity].
  apply is_done_spec in E as [E|E]; [discriminate|].
  cbn [Session.timeout Session.init] in E. exfalso.
  apply (Qlt_irrefl (now env)).
  now apply (Qle_lt_trans _ (float_add (clock_timeout env) 30)).
Qed.

Section WorkerMore.
Context {DB : Type} `{HostStore DB}.
Implicit Types (s : DHCPServer.t DB) (packet : DHCPPacket).

(** A packet with a message type reaches [receive]; what [handle] leaves
    is what [receive] leaves of the routed state. *)
Lemma handle_typed env packet s :
  message_type packet <> None ->
  exists r db evs,
    handle env (Decoded packet) s
    = (match r with Ok _ => Ok tt | Raise e => Raise e end,
       DHCPServer.emit evs (DHCPServer.set_hosts db (routed env packet s)))
    /\ receive_leaves (session_for s env (xid packet)) env packet (routed env packet s)
         r db evs.
Proof.
  intros Hty. destruct (message_type packet) as [ty|] eqn:E; [|contradiction].
  rewrite (handle_decoded env packet ty s E).
  destruct (receive_shape (session_for s env (xid packet)) env packet (routed env packet s))
    as (r & db & evs & Er & L).
  rewrite Er. exists r, db, evs. split; [now destruct r|exact L].
Qed.

Lemma handle_unhandled env d s :
  ~ handled d -> exists e, handle env d s = (Raise e, s).
Proof.
  destruct d as [| |packet]; cbn [handled]; intros Hbad.
  - exfalso. now apply Hbad.
  - eexists. reflexivity.
  - unfold handle. unfold message_type in Hbad.
    destruct (by_code 53 (options packet)) as [m|]; [|eexists; reflexivity].
    destruct (value m) as [d|e]; [|eexists; reflexivity].
    destruct (d !! "dhcp_message_type"); [|eexists; reflexivity].
    exfalso. apply Hbad. discriminate.
Qed.

(** What an answerable packet leaves of the server. *)
Lemma handle_answerable env packet s :
  answerable env s packet ->
  exists s',
    handle env (Decoded packet) s = (Ok tt, s')
    /\ DHCPServer.closed s' = DHCPServer.closed s
    /\ DHCPServer.conf s' = DHCPServer.conf s.
Proof.
  intros Hans. pose proof Hans as (Hty & _).
  destruct (handle_typed env packet s Hty) as (r & db & evs & E & _ & _ & Hok & _).
  destruct (Hok Hans) as [v ->].
  rewrite E. eexists. repeat split.
Qed.

Lemma handle_all_answerable env reads : forall s,
  answerable_all env reads s ->
  exists s',
    handle_all env reads s = (Ok tt, s')
    /\ DHCPServer.closed s' = DHCPServer.closed s
    /\ DHCPServer.conf s' = DHCPServer.conf s.
Proof.
  induction reads as [|d reads IH]; intros s Hall.
  - exists s. repeat split.
  - destruct d as [| |packet]; cbn [answerable_all] in Hall.
    + destruct (IH s Hall) as (s' & E & C & F). exists s'.
      cbn [handle_all]. unfold bind. cbn [handle ret]. auto.
    + contradiction.
    + destruct Hall as [Hans Hrest].
      destruct (handle_answerable env packet s Hans) as (s1 & E1 & C1 & F1).
      rewrite E1 in Hrest. cbn [snd] in Hrest.
      destruct (IH s1 Hrest) as (s2 & E2 & C2 & F2).
      exists s2. cbn [handle_all]. unfold bind. rewrite E1, E2.
      repeat split; congruence.
Qed.

(** X15: a cycle of [_worker] ends without an exception when [select]
    fails with [ValueError], and when every datagram read is either a
    failed read or a decoded packet that is answerable in the state in
    which the loop comes to it (it has a message type and a six-octet
    hardware address, its options 50 and 12 decode, the socket can be
    opened and the store holds and hands out 32-bit addresses), whatever
    these packets ask for; the server is as open as before and its
    configuration is unchanged. *)
Theorem worker_completes_on_answerable_datagrams env sel s :
  match sel with
  | SelectValueError => True
  | Readable reads => answerable_all env reads s
  end ->
  fst (_worker env sel s) = Ok tt
  /\ DHCPServer.closed (snd (_worker env sel s)) = DHCPServer.closed s
  /\ DHCPServer.conf (snd (_worker env sel s)) = DHCPServer.conf s.
Proof.
  destruct sel as [|reads]; intros Hsel.
  - repeat split.
  - destruct (handle_all_answerable env reads s Hsel) as (s1 & E1 & C1 & F1).
    unfold _worker, bind. rewrite E1. cbn. auto.
Qed.

(** X16: a datagram that cannot be decoded, or a packet without a message
    type, aborts the cycle in which it is read first: [_worker] raises,
    the datagrams after it are not handled and the table is not swept, so
    the server state is what it was.  The loop of [start] logs the
    exception and goes on with the next cycle. *)
Theorem unhandled_datagram_aborts_the_cycle env d rest s :
  ~ handled d ->
  exists e,
    _worker env (Readable (d :: rest)) s = (Raise e, s)
    /\ (DHCPServer.closed s = false ->
        forall later,
          serve (Turn env (Readable (d :: rest)) :: later) s
          = serve later (DHCPServer.emit [Log ERROR] s)).
Proof.
  intros Hbad. destruct (handle_unhandled env d s Hbad) as (e & E).
  exists e.
  assert (_worker env (Readable (d :: rest)) s = (Raise e, s)) as Hw.
  { unfold _worker. cbn [handle_all]. unfold bind. now rewrite E. }
  split; [exact Hw|].
  intros Hopen later. cbn [serve]. now rewrite Hopen, Hw.
Qed.

(** X17: a packet with a message type is routed to the transaction of its
    id: handling it leaves in the table the entries it had and, under the
    id of the packet, the session that was there or else a new one.  So a
    retransmission under a known id leaves the table as it is, and a new
    id gets a session that is open, whose start is one reading of the
    clock and whose deadline is the float sum of a second reading and 30.
    That session is still in the table at the end of the cycle when the
    reading of the sweep is not after its deadline. *)
Theorem datagram_is_routed_to_its_transaction env packet s :
  message_type packet <> None ->
  DHCPServer.sessions (snd (handle env (Decoded packet) s))
  = <[xid packet := session_for s env (xid packet)]> (DHCPServer.sessions s)
  /\ (forall session,
        DHCPServer.sessions s !! xid packet = Some session ->
        DHCPServer.sessions (snd (handle env (Decoded packet) s)) = DHCPServer.sessions s)
  /\ (DHCPServer.sessions s !! xid packet = None ->
      DHCPServer.sessions (snd (handle env (Decoded packet) s)) !! xid packet
      = Some {| Session.start := clock_start env; Session.packets := [];
                Session.timeout := float_add (clock_timeout env) 30;
                Session.closed := false |})
  /\ (DHCPServer.sessions s !! xid packet = None ->
      (now env <= float_add (clock_timeout env) 30)%Q ->
      DHCPServer.sessions (snd (_worker env (Readable [Decoded packet]) s)) !! xid packet
      = Some {| Session.start := clock_start env; Session.packets := [];
                Session.timeout := float_add (clock_timeout env) 30;
                Session.closed := false |}).
Proof.
  intros Hty. destruct (handle_typed env packet s Hty) as (r & db & evs & E & _).
  assert (DHCPServer.sessions (snd (handle env (Decoded packet) s))
          = <[xid packet := session_for s env (xid packet)]> (DHCPServer.sessions s)) as Htbl
    by now rewrite E.
  split; [exact Htbl|]. split; [|split].
  - intros session Hs. rewrite Htbl. unfold session_for. rewrite Hs.
    now apply insert_id.
  - intros Hnew. rewrite Htbl, lookup_insert_eq. unfold session_for. now rewrite Hnew.
  - intros Hnew Hle. unfold _worker. cbn [handle_all]. unfold bind. rewrite E.
    destruct r as [v|e];
      cbn [ret sweep snd DHCPServer.sessions DHCPServer.set_sessions DHCPServer.emit
           DHCPServer.set_hosts routed].
    + rewrite sweep_table_lookup, lookup_insert_eq.
      unfold session_for. rewrite Hnew. now rewrite (fresh_session_not_done env Hle).
    + rewrite lookup_insert_eq. unfold session_for. now rewrite Hnew.
Qed.

(** X18: a sweep keeps every transaction that is open and whose deadline
    is not before the time of the sweep, unchanged. *)
Theorem sweep_keeps_live_sessions env (tbl : gmap Z Session.t) tx session :
  tbl !! tx = Some session ->
  Session.closed session = false ->
  (now env <= Session.timeout session)%Q ->
  sweep_table env tbl !! tx = Some session.
Proof.
  intros Hin Hopen Hle. rewrite sweep_table_lookup, Hin.
  destruct (Session.is_done session env) eqn:E; [|reflexivity].
  apply is_done_spec in E as [E|E]; [congruence|].
  exfalso. apply (Qlt_irrefl (now env)). now apply (Qle_lt_trans _ (Session.timeout session)).
Qed.

(** X19: sweeps compose: after a sweep, a sweep at the same or a later
    time gives the table that the later sweep alone gives; in particular
    sweeping twice at one time is sweeping once. *)
Theorem sweep_after_sweep env env' (tbl : gmap Z Session.t) :
  (now env <= now env')%Q ->
  sweep_table env' (sweep_table env tbl) = sweep_table env' tbl
  /\ sweep_table env (sweep_table env tbl) = sweep_table env tbl.
Proof.
  intros Hle.
  assert (forall e1 e2, (now e1 <= now e2)%Q ->
            sweep_table e2 (sweep_table e1 tbl) = sweep_table e2 tbl) as Hgen.
  { intros e1 e2 H12. apply map_eq. intros k. rewrite !sweep_table_lookup.
    destruct (tbl !! k) as [session|]; [|reflexivity].
    destruct (Session.is_done session e1) eqn:E1; [|reflexivity].
    now rewrite (is_done_mono session e1 e2 E1 H12). }
  split; [now apply Hgen|]. apply Hgen. apply Qle_refl.
Qed.

(** X20: a transaction that is done at some time is done at every later
    time, and a closed one is done at all times. *)
Theorem done_stays_done session env env' :
  Session.is_done session env = true -> (now env <= now env')%Q ->
  Session.is_done session env' = true
  /\ Session.is_done (Session.close session) env = true
  /\ forall any, Session.is_done (Session.close session) any = true.
Proof.
  intros Hd Hle. split; [now apply (is_done_mono session env env')|].
  split; reflexivity.
Qed.

(** X21: [stop] closes the server and every session in the table, which
    keeps its entries, and hands the store to [flush]; afterwards every
    session of the table ignores what it receives, any sweep empties the
    table, and the loop of [start] does nothing more.  A
    [KeyboardInterrupt] in an open server ends the loop in that state,
    whatever cycles would follow. *)
Theorem stop_closes_everything s :
  DHCPServer.closed (stop s) = true
  /\ DHCPServer.hosts (stop s) = flush (DHCPServer.hosts s)
  /\ (forall tx,
        DHCPServer.sessions (stop s) !! tx
        = Session.close <$> (DHCPServer.sessions s !! tx))
  /\ (forall tx session env packet s0,
        DHCPServer.sessions (stop s) !! tx = Some session ->
        receive session env packet s0 = (Ok PyNone, s0))
  /\ (forall env, sweep_table env (DHCPServer.sessions (stop s)) = ∅)
  /\ (forall cycles, serve cycles (stop s) = stop s)
  /\ (DHCPServer.closed s = false ->
      forall later, serve (KeyboardInterrupt :: later) s = stop s).
Proof.
  assert (forall tx,
            DHCPServer.sessions (stop s) !! tx
            = Session.close <$> (DHCPServer.sessions s !! tx)) as Hclose.
  { intros tx. unfold stop. cbn. apply lookup_fmap. }
  assert (forall cycles, serve cycles (stop s) = stop s) as Hidle.
  { intros [|c cycles]; reflexivity. }
  split; [reflexivity|]. split; [reflexivity|]. split; [exact Hclose|].
  split; [|split; [|split]].
  - intros tx session env packet s0. rewrite Hclose.
    destruct (DHCPServer.sessions s !! tx) as [x|]; [|discriminate].
    intros [= <-]. now apply receive_closed.
  - intros env. apply map_eq. intros tx.
    rewrite sweep_table_lookup, Hclose, lookup_empty.
    now destruct (DHCPServer.sessions s !! tx).
  - exact Hidle.
  - intros Hopen later. cbn [serve]. rewrite Hopen. apply Hidle.
Qed.

End WorkerMore.

(** ** The further properties, at concrete inputs *)

Section MoreScenarios.
Import Scenario.

(** X15, witness: a cycle with one Discover ends normally. *)
Lemma worker_completes_on_answerable_datagrams_witness :
  fst (_worker (at_time 5) (Readable [Decoded (client "DHCPDISCOVER" mac1 7 [])])
         (server store_A)) = Ok tt.
Proof.
  refine (proj1 (worker_completes_on_answerable_datagrams (at_time 5)
                   (Readable [Decoded (client "DHCPDISCOVER" mac1 7 [])])
                   (server store_A) _)).
  cbn [answerable_all]. split; [|exact I].
  split; [vm_compute; discriminate|].
  split; [reflexivity|].
  split; [discriminate|].
  split; [|split].
  - intros c o e [->| ->] Ho; vm_compute in Ho; discriminate.
  - intros host Hg. vm_compute in Hg. discriminate.
  - intros hint name Hhint Hname. vm_compute in Hhint. vm_compute in Hname.
    injection Hhint as <-. injection Hname as <-. vm_compute. split; discriminate.
Defined.

(** A Discover whose hardware address has sixteen octets aborts the cycle
    after the store was called, and one whose option 50 does not decode
    aborts it before; when the second send fails the Offer goes out once. *)
Example worker_on_packets_it_cannot_answer :
  (let r := _worker (at_time 5)
              (Readable [Decoded (client "DHCPDISCOVER" long_chaddr 7 [])])
              (server store_A) in
   fst r = Raise DHCPValueError
   /\ List.filter is_store_access (DHCPServer.effects (snd r))
      = [StoreFindOrRegister long_chaddr (PyIP 0) PyNone]
   /\ broadcasts (DHCPServer.effects (snd r)) = [])
  /\ (let r := _worker (at_time 5)
                 (Readable [Decoded (client "DHCPDISCOVER" mac1 7 [broken_requested_ip])])
                 (server store_A) in
      fst r = Raise IndexError
      /\ List.filter is_store_access (DHCPServer.effects (snd r)) = [])
  /\ (let r := _worker (with_network SecondSendError (at_time 5))
                 (Readable [Decoded (client "DHCPDISCOVER" mac1 7 [])])
                 (server store_A) in
      fst r = Ok tt
      /\ List.length (sent_packets (DHCPServer.effects (snd r))) = 1%nat).
Proof. repeat split; vm_compute; reflexivity. Qed.

(** X16, witness: a packet without options aborts the cycle; the session
    that expired at time 30 is still in the table at time 31. *)
Lemma unhandled_datagram_aborts_the_cycle_witness :
  exists e,
    _worker (at_time 31)
      (Readable [Decoded {| op := "BOOTREQUEST"; xid := 9; secs := 0; ciaddr := 0;
                            yiaddr := 0; siaddr := 0; giaddr := 0; chaddr := mac1;
                            options := [] |}])
      server_with_session
    = (Raise e, server_with_session).
Proof.
  destruct (unhandled_datagram_aborts_the_cycle (at_time 31)
              (Decoded {| op := "BOOTREQUEST"; xid := 9; secs := 0; ciaddr := 0;
                          yiaddr := 0; siaddr := 0; giaddr := 0; chaddr := mac1;
                          options := [] |})
              [] server_with_session) as (e & E & _).
  - intros Hh. exact (Hh eq_refl).
  - exists e. exact E.
Defined.

(** X17, witness: a Request under the new id 9 when the clock reads 5
    leaves a session with deadline 35 in the table. *)
Lemma datagram_is_routed_to_its_transaction_witness :
  DHCPServer.sessions
    (snd (_worker (at_time 5) (Readable [Decoded (client "DHCPREQUEST" mac1 9 [])])
            server_with_session)) !! 9
  = Some {| Session.start := 5; Session.packets := [];
            Session.timeout := 35; Session.closed := false |}.
Proof.
  refine (proj2 (proj2 (proj2 (datagram_is_routed_to_its_transaction (at_time 5)
                                 (client "DHCPREQUEST" mac1 9 [])
                                 server_with_session _))) _ _).
  - vm_compute. discriminate.
  - vm_compute. reflexivity.
  - vm_compute. discriminate.
Defined.

(** X18, witness: the session with deadline 30 is kept by a sweep at time 30. *)
Lemma sweep_keeps_live_sessions_witness :
  sweep_table (at_time 30) {[ 7 := open_session ]} !! 7 = Some open_session.
Proof.
  apply sweep_keeps_live_sessions.
  - vm_compute. reflexivity.
  - reflexivity.
  - vm_compute. discriminate.
Defined.

(** X19, witness: sweeping at time 31 and then at time 40. *)
Lemma sweep_after_sweep_witness :
  sweep_table (at_time 40) (sweep_table (at_time 31) {[ 7 := open_session ]})
  = sweep_table (at_time 40) {[ 7 := open_session ]}.
Proof.
  refine (proj1 (sweep_after_sweep (at_time 31) (at_time 40) {[ 7 := open_session ]} _)).
  vm_compute. discriminate.
Defined.

(** X20, witness: done at time 31, done at time 40. *)
Lemma done_stays_done_witness :
  Session.is_done open_session (at_time 40) = true.
Proof.
  refine (proj1 (done_stays_done open_session (at_time 31) (at_time 40) _ _)).
  - reflexivity.
  - vm_compute. discriminate.
Defined.

End MoreScenarios.
